(** * Content manager and refreshable-content hook

    A shallow embedding of [src/services/content/ContentManager.ts] (host
    side) and of the [useRefreshableContent] React hook (UI side), with the
    properties of the content store and of the refresh coordinator stated
    over them. *)

From Stdlib Require Import NArith String Ascii Bool Lia.
From stdpp Require Import base option list gmap.

Local Open Scope N_scope.

(** ** JavaScript strings

    A JavaScript string is a sequence of UTF-16 code units. *)

Module JS.

Abbreviation jsstring := (list N).

(** The code units of an ASCII literal. *)
Definition js (s : string) : jsstring :=
  List.map N_of_ascii (list_ascii_of_string s).
Arguments js : simpl never.

(** ECMAScript [WhiteSpace] and [LineTerminator] code points, the ones
    [String.prototype.trim] strips: TAB, LF, VT, FF, CR, SP, NBSP, U+1680,
    U+2000..U+200A, LS, PS, U+202F, U+205F, U+3000 and the BOM. *)
Definition isWhiteSpace (c : N) : bool :=
  ((9 <=? c) && (c <=? 13)) || (c =? 32) || (c =? 160) || (c =? 5760)
  || ((8192 <=? c) && (c <=? 8202)) || (c =? 8232) || (c =? 8233)
  || (c =? 8239) || (c =? 8287) || (c =? 12288) || (c =? 65279).

Fixpoint trimStart (s : jsstring) : jsstring :=
  match s with
  | c :: s' => if isWhiteSpace c then trimStart s' else s
  | [] => []
  end.

Definition trimEnd (s : jsstring) : jsstring := rev (trimStart (rev s)).

(** [s.trim()] *)
Definition trim (s : jsstring) : jsstring := trimEnd (trimStart s).

(** Truthiness of a string value: every string but the empty one. *)
Definition truthy (s : jsstring) : bool :=
  match s with [] => false | _ :: _ => true end.

(** A thrown value as the code inspects it: [error.code], [error.message]. *)
Record JsError : Type := mkError {
  code : option jsstring;
  message : jsstring
}.

#[global] Instance JsError_eq_dec : EqDecision JsError.
Proof. solve_decision. Defined.

(** Surrogate code units: U+D800..U+DBFF lead a pair, U+DC00..U+DFFF trail
    one. *)
Definition isHighSurrogate (c : N) : bool := (55296 <=? c) && (c <=? 56319).

Definition isLowSurrogate (c : N) : bool := (56320 <=? c) && (c <=? 57343).

Definition startsWithLow (s : jsstring) : bool :=
  match s with
  | d :: _ => isLowSurrogate d
  | [] => false
  end.

(** What a string is once it has been encoded as UTF-8 and decoded again:
    UTF-8 cannot hold a surrogate that is not part of a pair, and the
    encoder writes U+FFFD in its place. [paired] says that the code unit at
    the head trails the high surrogate just before it. *)
Fixpoint utf8RoundTrip (paired : bool) (s : jsstring) : jsstring :=
  match s with
  | [] => []
  | c :: s' =>
      if paired then c :: utf8RoundTrip false s'
      else if isHighSurrogate c then
        if startsWithLow s' then c :: utf8RoundTrip true s'
        else 65533 :: utf8RoundTrip false s'
      else if isLowSurrogate c then 65533 :: utf8RoundTrip false s'
      else c :: utf8RoundTrip false s'
  end.

(** [s.toWellFormed()]: every lone surrogate replaced by U+FFFD. *)
Definition toWellFormed (s : jsstring) : jsstring := utf8RoundTrip false s.

(** A string without lone surrogates. *)
Definition wellFormed (s : jsstring) : Prop := toWellFormed s = s.

(** A text that is not empty and neither begins nor ends with white space;
    the defaults are a space, so the empty text does not qualify. *)
Definition trimmed (s : jsstring) : bool :=
  negb (isWhiteSpace (List.hd 32 s)) && negb (isWhiteSpace (List.last s 32)).

End JS.

Import JS.

(** ** Messages between host and webview *)

Module Shared.

(** A message from the host to the webview: the fields of [ExtensionMessage]
    that this code sets and reads, [contentId] and [success] being optional
    in the type. *)
Record ExtensionMessage : Type := mkMessage {
  type : jsstring;
  contentId : option jsstring;
  success : option bool
}.

#[global] Instance ExtensionMessage_eq_dec : EqDecision ExtensionMessage.
Proof. solve_decision. Defined.

(** [{ type: "contentRefreshed", contentId, success }] *)
Definition contentRefreshed (contentId : jsstring) (success : bool)
  : ExtensionMessage :=
  mkMessage (js "contentRefreshed") (Some contentId) (Some success).

End Shared.

Import Shared.

(** ** Host side: the content manager *)

Module ContentManager.

(** What the manager does to its collaborators, in program order. *)
Inductive Event : Type :=
  | ELog (line : jsstring)                  (* this.log(line) *)
  | EPostMessage (m : ExtensionMessage)     (* this.postMessageToWebview(m) *)
  | EPostState                              (* this.postStateToWebview() *)
  | EOpenFile (path : jsstring) (create : bool)
  | EExecuteCommand (command : jsstring).

#[global] Instance Event_eq_dec : EqDecision Event.
Proof. solve_decision. Defined.

(** The file store, which maps a path to the text its file decodes to, and
    the trace of collaborator calls. *)
Record World : Type := mkWorld {
  files : gmap jsstring jsstring;
  trace : list Event
}.

(** The collaborators of the manager that [ContentManager.ts] imports or is
    constructed with: the injected storage root, the shared constants, the
    settings-directory utility, [path.join], and what the file system and
    the webview answer when they refuse a call. *)
Record Host : Type := mkHost {
  globalStorageUriFsPath : jsstring;
  GlobalContentIds_customInstructions : jsstring;
  GlobalFileNames_customInstructions : jsstring;
  (** [getSettingsDirectoryPath]: a path, or the error it throws *)
  getSettingsDirectoryPath : jsstring -> JsError + jsstring;
  path_join : jsstring -> jsstring -> jsstring;
  (** the error [fs.writeFile] rejects with at a path, if any *)
  writeFile_error : jsstring -> option JsError;
  (** the error [fs.unlink] rejects with at a path whatever is stored
      there, if any; without one, it rejects only when the file is absent *)
  unlink_error : jsstring -> option JsError;
  (** the error [postStateToWebview] rejects with, if any *)
  postState_error : option JsError
}.

(** *** Promises that resolve or reject, over the world *)

Inductive Outcome (A : Type) : Type :=
  | Resolved (a : A)
  | Rejected (e : JsError).
Arguments Resolved {A} a.
Arguments Rejected {A} e.

Definition Async (A : Type) : Type := World -> World * Outcome A.

Definition ret {A} (a : A) : Async A := fun w => (w, Resolved a).

Definition throw {A} (e : JsError) : Async A := fun w => (w, Rejected e).

Definition bind {A B} (m : Async A) (k : A -> Async B) : Async B :=
  fun w =>
    match m w with
    | (w', Resolved a) => k a w'
    | (w', Rejected e) => (w', Rejected e)
    end.

(** [try { m } catch (error) { handler error }] *)
Definition try_catch {A} (m : Async A) (handler : JsError -> Async A) : Async A :=
  fun w =>
    match m w with
    | (w', Resolved a) => (w', Resolved a)
    | (w', Rejected e) => handler e w'
    end.

Declare Scope async_scope.
Delimit Scope async_scope with async.
Notation "'await' x <- m ; k" := (bind m (fun x => k))
  (at level 10, x name, m at level 100, k at level 200) : async_scope.
Notation "m ;; k" := (bind m (fun _ => k))
  (at level 100, k at level 200, right associativity) : async_scope.
Local Open Scope async_scope.

Definition emit (ev : Event) : Async unit :=
  fun w => (mkWorld (files w) (trace w ++ [ev]), Resolved tt).

(** *** Injected dependencies *)

Definition log (line : jsstring) : Async unit := emit (ELog line).

Definition postMessageToWebview (m : ExtensionMessage) : Async unit :=
  emit (EPostMessage m).

Definition postStateToWebview (h : Host) : Async unit :=
  emit EPostState ;;
  match postState_error h with
  | Some e => throw e
  | None => ret tt
  end.

(** *** The file system *)

(** The error of [fs.unlink] on an absent file. *)
Definition ENOENT (path : jsstring) : JsError :=
  mkError (Some (js "ENOENT"))
          (js "ENOENT: no such file or directory, unlink '" ++ path ++ js "'").

(** [fs.writeFile(path, data, "utf-8")]: the file holds the UTF-8 bytes of
    [data], and so the text those bytes decode to. *)
Definition fs_writeFile (h : Host) (path data : jsstring) : Async unit :=
  fun w =>
    match writeFile_error h path with
    | Some e => (w, Rejected e)
    | None =>
        (mkWorld (<[path := toWellFormed data]> (files w)) (trace w),
         Resolved tt)
    end.

Definition fs_unlink (h : Host) (path : jsstring) : Async unit :=
  fun w =>
    match unlink_error h path with
    | Some e => (w, Rejected e)
    | None =>
        match files w !! path with
        | Some _ => (mkWorld (delete path (files w)) (trace w), Resolved tt)
        | None => (w, Rejected (ENOENT path))
        end
    end.

(** Modelled from the spec: [safeReadFile] of [utils/fs], which is not among
    the sources; the file store's [readFile(path) -> text | absent]. *)
Definition safeReadFile (path : jsstring) : Async (option jsstring) :=
  fun w => (w, Resolved (files w !! path)).

(** Modelled from the spec: [openFile] of [integrations/misc/open-file],
    which is not among the sources; [openEditor(path, {createIfMissing})]
    ensures the file exists, creating an empty one if absent, and makes it
    the active editor view. *)
Definition openFile (path : jsstring) (create : bool) : Async unit :=
  fun w =>
    let fs' :=
      match files w !! path with
      | None => if create then <[path := []]> (files w) else files w
      | Some _ => files w
      end in
    (mkWorld fs' (trace w ++ [EOpenFile path create]), Resolved tt).

Definition executeCommand (command : jsstring) : Async unit :=
  emit (EExecuteCommand command).

(** *** The class *)

Definition ensureSettingsDirectoryExists (h : Host) : Async jsstring :=
  let globalStoragePath := globalStorageUriFsPath h in
  match getSettingsDirectoryPath h globalStoragePath with
  | inr dir => ret dir
  | inl e => throw e
  end.

Definition getContentPath (h : Host) (contentId : jsstring)
  : Async (option jsstring) :=
  await settingsDir <- ensureSettingsDirectoryExists h ;
  if decide (contentId = GlobalContentIds_customInstructions h) then
    ret (Some (path_join h settingsDir (GlobalFileNames_customInstructions h)))
  else
    (log (js "Unknown contentId: " ++ contentId) ;;
     ret None).

Definition openContent (h : Host) (contentId : jsstring) : Async unit :=
  await filePath <- getContentPath h contentId ;
  match filePath with
  | Some ((_ :: _) as filePath) =>
      openFile filePath true ;;
      executeCommand (js "workbench.action.files.revert")
  | _ =>
      log (js "File path could not be determined for contentId: " ++ contentId)
  end.

Definition updateContent (h : Host) (contentId : jsstring)
    (content : option jsstring) : Async unit :=
  await filePath <- getContentPath h contentId ;
  match filePath with
  | Some ((_ :: _) as filePath) =>
      (* the else branch of [if (content && content.trim())] *)
      let unlinkFile : Async unit :=
        try_catch
          (fs_unlink h filePath ;;
           log (js "Deleted content file: " ++ filePath))
          (fun error =>
             if decide (code error <> Some (js "ENOENT")) then
               log (js "Error deleting content file: " ++ message error) ;;
               throw error
             else ret tt) in
      (match content with
       | Some content =>
           if truthy content && truthy (trim content) then
             fs_writeFile h filePath (trim content) ;;
             log (js "Updated content file: " ++ filePath)
           else unlinkFile
       | None => unlinkFile
       end) ;;
      (* Update the webview state *)
      postStateToWebview h
  | _ =>
      log (js "File path could not be determined for contentId: " ++ contentId)
  end.

Definition readContent (h : Host) (contentId : jsstring) : Async jsstring :=
  await filePath <- getContentPath h contentId ;
  match filePath with
  | Some ((_ :: _) as filePath) =>
      await text <- safeReadFile filePath ;
      ret (default [] text)
  | _ => ret []
  end.

Definition refreshContent (h : Host) (contentId : jsstring) : Async unit :=
  await content <- readContent h contentId ;
  updateContent h contentId (Some content) ;;
  (* not awaited: the promise of the post is dropped *)
  postMessageToWebview
    (mkMessage (js "contentRefreshed") (Some contentId) (Some true)).

(** *** Observations on a trace *)

(** The messages posted to the webview, in order. *)
Fixpoint posted (t : list Event) : list ExtensionMessage :=
  match t with
  | EPostMessage m :: t' => m :: posted t'
  | _ :: t' => posted t'
  | [] => []
  end.

(** How many full state pushes were issued. *)
Fixpoint statePushes (t : list Event) : nat :=
  match t with
  | EPostState :: t' => S (statePushes t')
  | _ :: t' => statePushes t'
  | [] => O
  end.

(** [w'] continues the trace of [w] without posting a message. *)
Definition quiet (w w' : World) : Prop :=
  exists new, trace w' = trace w ++ new /\ posted new = [].

(** [contentId] resolves to the file [path]: it is the registered identifier,
    the settings directory is found, and the joined path is a truthy string. *)
Definition resolves (h : Host) (contentId path : jsstring) : Prop :=
  contentId = GlobalContentIds_customInstructions h /\
  exists dir,
    getSettingsDirectoryPath h (globalStorageUriFsPath h) = inr dir /\
    path_join h dir (GlobalFileNames_customInstructions h) = path /\
    truthy path = true.

(** The [content] argument takes the else branch of
    [if (content && content.trim())]: absent, empty or only white space. *)
Definition blank (content : option jsstring) : bool :=
  match content with
  | Some content => negb (truthy content && truthy (trim content))
  | None => true
  end.

(** *** A concrete host *)

Definition EACCES : JsError :=
  mkError (Some (js "EACCES")) (js "EACCES: permission denied").

(** A host whose file system and webview never refuse a call. *)
Definition plainHost : Host :=
  mkHost (js "/storage") (js "customInstructions") (js "custom_instructions.md")
    (fun root => inr (root ++ js "/settings"))
    (fun a b => a ++ js "/" ++ b)
    (fun _ => None) (fun _ => None) None.

(** The same host with a file system that refuses every deletion. *)
Definition lockedHost : Host :=
  mkHost (js "/storage") (js "customInstructions") (js "custom_instructions.md")
    (fun root => inr (root ++ js "/settings"))
    (fun a b => a ++ js "/" ++ b)
    (fun _ => None) (fun _ => Some EACCES) None.

Definition instructionsPath : jsstring :=
  js "/storage/settings/custom_instructions.md".

(** ["  hello  \n"] *)
Definition paddedHello : jsstring :=
  [32; 32; 104; 101; 108; 108; 111; 32; 32; 10].

Definition emptyWorld : World := mkWorld ∅ [].

Definition helloWorld : World :=
  mkWorld {[ instructionsPath := paddedHello ]} [].

(** The file system and the webview refuse nothing at [path]. *)
Definition accepting (h : Host) (path : jsstring) : Prop :=
  writeFile_error h path = None /\
  unlink_error h path = None /\
  postState_error h = None.

(** The file store once [text] has been written at [path] as UTF-8, a falsy
    [text] standing for no file at all. *)
Definition store (path text : jsstring) (fs : gmap jsstring jsstring)
  : gmap jsstring jsstring :=
  if truthy text then <[path := toWellFormed text]> fs else delete path fs.

(** The file operation an update with [content] performs at [path] is not
    refused: the write on the write branch, the deletion on the delete
    branch. *)
Definition notRefused (h : Host) (path : jsstring) (content : option jsstring)
  : Prop :=
  if blank content then unlink_error h path = None
  else writeFile_error h path = None.

(** The file operation of the update does not end the call: the write is
    accepted, or the deletion succeeds or fails only with [ENOENT]. *)
Definition passes (h : Host) (path : jsstring) (content : option jsstring)
  : Prop :=
  if blank content then
    forall e, unlink_error h path = Some e -> code e = Some (js "ENOENT")
  else writeFile_error h path = None.

(** The log lines of an update whose file operation is not refused. *)
Definition updateLog (p : jsstring) (c : option jsstring) (w : World)
  : list Event :=
  if truthy (trim (default [] c)) then
    [ELog (js "Updated content file: " ++ p)]
  else
    match files w !! p with
    | Some _ => [ELog (js "Deleted content file: " ++ p)]
    | None => []
    end.

(** Hosts that refuse one kind of call each. *)
Definition readOnlyHost : Host :=
  mkHost (js "/storage") (js "customInstructions") (js "custom_instructions.md")
    (fun root => inr (root ++ js "/settings"))
    (fun a b => a ++ js "/" ++ b)
    (fun _ => Some EACCES) (fun _ => None) None.

Definition deafHost : Host :=
  mkHost (js "/storage") (js "customInstructions") (js "custom_instructions.md")
    (fun root => inr (root ++ js "/settings"))
    (fun a b => a ++ js "/" ++ b)
    (fun _ => None) (fun _ => None)
    (Some (mkError None (js "Webview is disposed"))).

Definition lostHost : Host :=
  mkHost (js "/storage") (js "customInstructions") (js "custom_instructions.md")
    (fun _ => inl EACCES)
    (fun a b => a ++ js "/" ++ b)
    (fun _ => None) (fun _ => None) None.

(** [" \ud800x "]: a high surrogate that leads no pair. *)
Definition loneSurrogate : jsstring := [32; 55296; 120; 32].

(** ["   "], and a second file beside the instructions. *)
Definition threeSpaces : jsstring := [32; 32; 32].

Definition notesPath : jsstring := js "/storage/settings/notes.md".

Definition twoFilesWorld : World :=
  mkWorld (<[notesPath := js "keep"]> {[ instructionsPath := threeSpaces ]}) [].

End ContentManager.

(** ** UI side: the refresh coordinator *)

Module RefreshableContent.

(** A message from the webview to the host, [vscode.postMessage(...)]. *)
Record WebviewMessage : Type := mkWebviewMessage {
  wtype : jsstring;
  wcontentId : jsstring
}.

(** A pending [setTimeout]. The only callback this hook ever schedules is
    [() => setShowRefreshSuccess(false)], so a timer is its handle and the
    time at which it comes due. *)
Record Timer : Type := mkTimer {
  handle : N;
  due : N
}.

(** A mounted (or unmounted) instance of the hook together with the part of
    the window it touches. *)
Record Component : Type := mkComponent {
  isRefreshing : bool;            (* useState(false) *)
  showRefreshSuccess : bool;      (* useState(false) *)
  props_contentId : jsstring;     (* the argument of the hook *)
  mounted : bool;
  (** the [handleMessage] registered for "message" events, known by the
      [contentId] its closure captured *)
  listener : option jsstring;
  timers : list Timer;            (* pending timeouts, oldest first *)
  nextHandle : N;
  clock : N;                      (* milliseconds *)
  sent : list WebviewMessage
}.

(** State setters; React drops an update to an unmounted component. *)
Definition setIsRefreshing (v : bool) (c : Component) : Component :=
  if mounted c then
    mkComponent v (showRefreshSuccess c) (props_contentId c) (mounted c)
      (listener c) (timers c) (nextHandle c) (clock c) (sent c)
  else c.

Definition setShowRefreshSuccess (v : bool) (c : Component) : Component :=
  if mounted c then
    mkComponent (isRefreshing c) v (props_contentId c) (mounted c)
      (listener c) (timers c) (nextHandle c) (clock c) (sent c)
  else c.

(** [setTimeout(() => setShowRefreshSuccess(false), delay)] *)
Definition setTimeout (delay : N) (c : Component) : Component * N :=
  (mkComponent (isRefreshing c) (showRefreshSuccess c) (props_contentId c)
     (mounted c) (listener c)
     (timers c ++ [mkTimer (nextHandle c) (clock c + delay)])
     (nextHandle c + 1) (clock c) (sent c),
   nextHandle c).

Definition clearTimeout (timer : N) (c : Component) : Component :=
  mkComponent (isRefreshing c) (showRefreshSuccess c) (props_contentId c)
    (mounted c) (listener c)
    (List.filter (fun t => negb (handle t =? timer)) (timers c))
    (nextHandle c) (clock c) (sent c).

Definition setListener (l : option jsstring) (c : Component) : Component :=
  mkComponent (isRefreshing c) (showRefreshSuccess c) (props_contentId c)
    (mounted c) l (timers c) (nextHandle c) (clock c) (sent c).

(** The closure [() => clearTimeout(timer)] that [handleMessage] returns. *)
Inductive Cleanup : Type := ClearTimeout (timer : N).

Definition runCleanup (k : Cleanup) (c : Component) : Component :=
  match k with ClearTimeout timer => clearTimeout timer c end.

(** The listener of the effect, closed over [contentId]. *)
Definition handleMessage (contentId : jsstring) (message : ExtensionMessage)
    (c : Component) : Component * option Cleanup :=
  if bool_decide (type message = js "contentRefreshed")
     && bool_decide (Shared.contentId message = Some contentId) then
    let c := setIsRefreshing false c in
    match success message with
    | Some true =>
        let c := setShowRefreshSuccess true c in
        let '(c, timer) := setTimeout 3000 c in
        (c, Some (ClearTimeout timer))
    | _ => (c, None)
    end
  else (c, None).

(** The window delivers a "message" event: the registered listener runs and
    whatever it returns is dropped, as for every DOM event listener. *)
Definition dispatchMessage (message : ExtensionMessage) (c : Component)
  : Component :=
  match listener c with
  | Some contentId => fst (handleMessage contentId message c)
  | None => c
  end.

(** The body of [useEffect(..., [contentId])] and the cleanup it returns. *)
Definition effect (contentId : jsstring) (c : Component) : Component :=
  setListener (Some contentId) c.          (* window.addEventListener *)

Definition effectCleanup (c : Component) : Component :=
  setListener None c.                      (* window.removeEventListener *)

(** First render. *)
Definition mount (contentId : jsstring) : Component :=
  effect contentId (mkComponent false false contentId true None [] 0 0 []).

(** A later render with a possibly different [contentId]: the effect is
    cleaned up and run again when its dependency changed. *)
Definition render (contentId : jsstring) (c : Component) : Component :=
  if mounted c then
    if decide (contentId = props_contentId c) then c
    else
      let c := effectCleanup c in
      effect contentId
        (mkComponent (isRefreshing c) (showRefreshSuccess c) contentId
           (mounted c) (listener c) (timers c) (nextHandle c) (clock c)
           (sent c))
  else c.

Definition unmount (c : Component) : Component :=
  let c := effectCleanup c in
  mkComponent (isRefreshing c) (showRefreshSuccess c) (props_contentId c)
    false (listener c) (timers c) (nextHandle c) (clock c) (sent c).

(** The [refreshContent] callback the hook returns. *)
Definition refreshContent (c : Component) : Component :=
  let c := setIsRefreshing true c in
  mkComponent (isRefreshing c) (showRefreshSuccess c) (props_contentId c)
    (mounted c) (listener c) (timers c) (nextHandle c) (clock c)
    (sent c ++ [mkWebviewMessage (js "refreshContent") (props_contentId c)]).

(** Time passes: every timer that has come due fires, oldest first, and is
    gone afterwards. *)
Definition isDue (now : N) (t : Timer) : bool := due t <=? now.

Definition fire (c : Component) (t : Timer) : Component :=
  setShowRefreshSuccess false c.

Definition advance (ms : N) (c : Component) : Component :=
  let now := clock c + ms in
  let fired := List.filter (isDue now) (timers c) in
  let pending := List.filter (fun t => negb (isDue now t)) (timers c) in
  fold_left fire fired
    (mkComponent (isRefreshing c) (showRefreshSuccess c) (props_contentId c)
       (mounted c) (listener c) pending (nextHandle c) now (sent c)).

(** The coordinator is mounted and listening for [contentId]. *)
Definition boundTo (contentId : jsstring) (c : Component) : Prop :=
  mounted c = true /\ listener c = Some contentId.

(** The effect and its cleanup bracket the listener: a mounted component
    listens for the identifier it was last rendered with, an unmounted one
    for nothing. *)
Definition listening (c : Component) : Prop :=
  listener c = if mounted c then Some (props_contentId c) else None.

(** What can happen to a component after its first render. *)
Inductive Op : Type :=
  | ORender (contentId : jsstring)
  | OUnmount
  | OMessage (message : ExtensionMessage)
  | ORefresh
  | OAdvance (ms : N).

Definition step (c : Component) (o : Op) : Component :=
  match o with
  | ORender contentId => render contentId c
  | OUnmount => unmount c
  | OMessage message => dispatchMessage message c
  | ORefresh => refreshContent c
  | OAdvance ms => advance ms c
  end.

Definition run (ops : list Op) (c : Component) : Component :=
  fold_left step ops c.

(** No pending timer is due later than 3000 ms from now, and a banner that
    shows on a mounted component has a timer pending. *)
Definition bannerBacked (c : Component) : Prop :=
  (forall t, In t (timers c) -> due t <= clock c + 3000) /\
  (mounted c = true -> showRefreshSuccess c = true -> timers c <> []).

End RefreshableContent.

(** * Properties of the UTF-8 round trip *)

Section EncodingFacts.

(** Decide the comparisons of [isWhiteSpace] for a code unit whose range is
    known. *)
Ltac settle_comparisons :=
  repeat match goal with
         | |- context [?a <=? ?b] =>
             first [ replace (a <=? b) with true
                       by (symmetry; apply N.leb_le; lia)
                   | replace (a <=? b) with false
                       by (symmetry; apply N.leb_gt; lia) ]
         | |- context [?a =? ?b] =>
             replace (a =? b) with false by (symmetry; apply N.eqb_neq; lia)
         end.

(** No surrogate is white space. *)
Lemma surrogate_not_whitespace (c : N) :
  isHighSurrogate c || isLowSurrogate c = true -> isWhiteSpace c = false.
Proof.
  unfold isHighSurrogate, isLowSurrogate. intros H.
  assert (Hc : 55296 <= c <= 57343).
  { apply orb_true_iff in H. destruct H as [H|H];
      apply andb_true_iff in H; destruct H as [H1 H2];
      apply N.leb_le in H1; apply N.leb_le in H2; lia. }
  unfold isWhiteSpace. settle_comparisons. reflexivity.
Qed.

Lemma whitespace_not_surrogate (c : N) :
  isWhiteSpace c = true -> isHighSurrogate c = false /\ isLowSurrogate c = false.
Proof.
  intros Hws.
  destruct (isHighSurrogate c) eqn:Hh, (isLowSurrogate c) eqn:Hl; try (split; reflexivity);
    rewrite surrogate_not_whitespace in Hws
      by (rewrite Hh, Hl; reflexivity);
    discriminate Hws.
Qed.

(** The round trip changes no code unit into or out of white space. *)
Lemma utf8RoundTrip_whitespace (s : jsstring) (paired : bool) :
  List.map isWhiteSpace (utf8RoundTrip paired s) = List.map isWhiteSpace s.
Proof.
  revert paired. induction s as [|c s IH]; intros paired; [reflexivity|].
  cbn [utf8RoundTrip]. destruct paired; [cbn [List.map]; rewrite IH; reflexivity|].
  destruct (isHighSurrogate c) eqn:Hh.
  - assert (Hc : isWhiteSpace c = false)
      by (apply surrogate_not_whitespace; rewrite Hh; reflexivity).
    destruct (startsWithLow s); cbn [List.map]; rewrite IH, Hc; reflexivity.
  - destruct (isLowSurrogate c) eqn:Hl; cbn [List.map]; rewrite IH; [|reflexivity].
    rewrite (surrogate_not_whitespace c) by (rewrite Hh, Hl; reflexivity).
    reflexivity.
Qed.

Lemma startsWithLow_paired (s : jsstring) :
  startsWithLow (utf8RoundTrip true s) = startsWithLow s.
Proof. destruct s; reflexivity. Qed.

(** A second round trip changes nothing. *)
Lemma utf8RoundTrip_idempotent (s : jsstring) (paired : bool) :
  utf8RoundTrip paired (utf8RoundTrip paired s) = utf8RoundTrip paired s.
Proof.
  revert paired. induction s as [|c s IH]; intros paired; [destruct paired; reflexivity|].
  cbn [utf8RoundTrip]. destruct paired.
  - cbn [utf8RoundTrip]. rewrite IH. reflexivity.
  - destruct (isHighSurrogate c) eqn:Hh.
    + destruct (startsWithLow s) eqn:Hs; cbn [utf8RoundTrip].
      * rewrite Hh, startsWithLow_paired, Hs, IH. reflexivity.
      * change (isHighSurrogate 65533) with false.
        change (isLowSurrogate 65533) with false. cbn iota.
        rewrite IH. reflexivity.
    + destruct (isLowSurrogate c) eqn:Hl; cbn [utf8RoundTrip].
      * change (isHighSurrogate 65533) with false.
        change (isLowSurrogate 65533) with false. cbn iota.
        rewrite IH. reflexivity.
      * rewrite Hh, Hl, IH. reflexivity.
Qed.

Lemma toWellFormed_idempotent (s : jsstring) :
  toWellFormed (toWellFormed s) = toWellFormed s.
Proof. apply utf8RoundTrip_idempotent. Qed.

Lemma truthy_toWellFormed (s : jsstring) : truthy (toWellFormed s) = truthy s.
Proof.
  destruct s as [|c s]; [reflexivity|].
  unfold toWellFormed. cbn [utf8RoundTrip].
  destruct (isHighSurrogate c); [destruct (startsWithLow s); reflexivity|].
  destruct (isLowSurrogate c); reflexivity.
Qed.

Lemma whitespace_hd (l : jsstring) :
  isWhiteSpace (List.hd 32 l) = List.hd true (List.map isWhiteSpace l).
Proof. destruct l; reflexivity. Qed.

Lemma whitespace_last (l : jsstring) :
  isWhiteSpace (List.last l 32) = List.last (List.map isWhiteSpace l) true.
Proof.
  induction l as [|c l IH]; [reflexivity|].
  destruct l as [|d l]; [reflexivity|].
  cbn [List.last List.map] in IH |- *. exact IH.
Qed.

(** The round trip keeps a trimmed text trimmed. *)
Lemma trimmed_toWellFormed (s : jsstring) :
  trimmed (toWellFormed s) = trimmed s.
Proof.
  unfold trimmed. rewrite !whitespace_hd, !whitespace_last.
  unfold toWellFormed. rewrite utf8RoundTrip_whitespace. reflexivity.
Qed.

(** A code unit that is no surrogate passes through, at the head and at the
    end of a string. *)
Lemma toWellFormed_cons (c : N) (s : jsstring) :
  isHighSurrogate c = false -> isLowSurrogate c = false ->
  toWellFormed (c :: s) = c :: toWellFormed s.
Proof.
  intros Hh Hl. unfold toWellFormed. cbn [utf8RoundTrip].
  rewrite Hh, Hl. reflexivity.
Qed.

Lemma utf8RoundTrip_snoc (c : N) (s : jsstring) (paired : bool) :
  isHighSurrogate c = false -> isLowSurrogate c = false ->
  utf8RoundTrip paired (s ++ [c]) = utf8RoundTrip paired s ++ [c].
Proof.
  intros Hh Hl. revert paired.
  induction s as [|a s IH]; intros paired.
  - cbn [app utf8RoundTrip]. rewrite Hh, Hl. destruct paired; reflexivity.
  - cbn [app utf8RoundTrip]. destruct paired; [rewrite IH; reflexivity|].
    assert (Hs : startsWithLow (s ++ [c]) = startsWithLow s).
    { destruct s; [exact Hl | reflexivity]. }
    rewrite Hs.
    destruct (isHighSurrogate a); [destruct (startsWithLow s)|
      destruct (isLowSurrogate a)]; rewrite IH; reflexivity.
Qed.

(** Trimming a string without lone surrogates leaves none. *)
Lemma wellFormed_trimStart (s : jsstring) :
  wellFormed s -> wellFormed (trimStart s).
Proof.
  unfold wellFormed. induction s as [|c s IH]; intros H; [reflexivity|].
  cbn [trimStart]. destruct (isWhiteSpace c) eqn:Hc; [|exact H].
  destruct (whitespace_not_surrogate c Hc) as (Hh & Hl).
  rewrite (toWellFormed_cons c s Hh Hl) in H.
  apply IH. congruence.
Qed.

Lemma wellFormed_trimEnd (s : jsstring) :
  wellFormed s -> wellFormed (trimEnd s).
Proof.
  unfold wellFormed, trimEnd.
  induction s as [|c s IH] using rev_ind; intros H; [reflexivity|].
  rewrite rev_unit. cbn [trimStart].
  destruct (isWhiteSpace c) eqn:Hc.
  - destruct (whitespace_not_surrogate c Hc) as (Hh & Hl).
    unfold toWellFormed in H. rewrite (utf8RoundTrip_snoc c s false Hh Hl) in H.
    apply app_inj_tail in H. destruct H as [H _]. apply IH. exact H.
  - cbn [rev]. rewrite rev_involutive. exact H.
Qed.

Lemma wellFormed_trim (s : jsstring) : wellFormed s -> wellFormed (trim s).
Proof.
  intros H. unfold trim. apply wellFormed_trimEnd, wellFormed_trimStart, H.
Qed.

End EncodingFacts.

(** * Properties of the content manager *)

Section ContentManagerFacts.

Import ContentManager.
Local Open Scope async_scope.

Lemma posted_app (t1 t2 : list Event) :
  posted (t1 ++ t2) = posted t1 ++ posted t2.
Proof.
  induction t1 as [|ev t1 IH]; [reflexivity|].
  destruct ev; simpl; rewrite IH; reflexivity.
Qed.

Lemma statePushes_app (t1 t2 : list Event) :
  statePushes (t1 ++ t2) = (statePushes t1 + statePushes t2)%nat.
Proof.
  induction t1 as [|ev t1 IH]; [reflexivity|].
  destruct ev; simpl; rewrite IH; reflexivity.
Qed.

Lemma truthy_trim (s : jsstring) : truthy (trim s) = true -> truthy s = true.
Proof. destruct s; [discriminate | reflexivity]. Qed.

Lemma blank_Some_false (s : jsstring) :
  truthy (trim s) = true -> truthy s && truthy (trim s) = true.
Proof. intros H. rewrite H, (truthy_trim _ H). reflexivity. Qed.

(** What a resolvable identifier resolves to, without touching the world. *)
Lemma getContentPath_resolves (h : Host) (id p : jsstring) (w : World) :
  resolves h id p -> getContentPath h id w = (w, Resolved (Some p)).
Proof.
  intros [-> (dir & Hdir & <- & _)].
  unfold getContentPath, ensureSettingsDirectoryExists, bind.
  rewrite Hdir. unfold ret.
  destruct (decide _) as [_|Hne]; [reflexivity | contradiction].
Qed.

(** An unknown identifier is logged and resolves to [undefined], unless the
    settings directory itself cannot be found. *)
Lemma getContentPath_unknown (h : Host) (id : jsstring) (w : World) :
  id <> GlobalContentIds_customInstructions h ->
  getContentPath h id w =
    match getSettingsDirectoryPath h (globalStorageUriFsPath h) with
    | inr _ =>
        (mkWorld (files w) (trace w ++ [ELog (js "Unknown contentId: " ++ id)]),
         Resolved None)
    | inl e => (w, Rejected e)
    end.
Proof.
  intros Hne.
  unfold getContentPath, ensureSettingsDirectoryExists, bind.
  destruct (getSettingsDirectoryPath h _) as [e|dir]; [reflexivity|].
  unfold ret. destruct (decide _) as [Heq|_]; [contradiction | reflexivity].
Qed.

Lemma postStateToWebview_eq (h : Host) (w : World) :
  postStateToWebview h w =
    (mkWorld (files w) (trace w ++ [EPostState]),
     match postState_error h with
     | Some e => Rejected e
     | None => Resolved tt
     end).
Proof.
  unfold postStateToWebview, bind, emit, throw, ret.
  destruct (postState_error h); reflexivity.
Qed.

(** The write branch, when the file system accepts the write. *)
Lemma updateContent_write (h : Host) (id p c : jsstring) (w : World) :
  resolves h id p ->
  truthy (trim c) = true ->
  writeFile_error h p = None ->
  updateContent h id (Some c) w =
    postStateToWebview h
      (mkWorld (<[p := toWellFormed (trim c)]> (files w))
               (trace w ++ [ELog (js "Updated content file: " ++ p)])).
Proof.
  intros Hres Hc Hw.
  unfold updateContent, bind at 1.
  rewrite (getContentPath_resolves _ _ _ _ Hres).
  destruct Hres as (_ & _ & _ & _ & Hp).
  destruct p as [|a p]; [discriminate|].
  rewrite (blank_Some_false _ Hc).
  unfold bind, fs_writeFile, log, emit. rewrite Hw. reflexivity.
Qed.

(** Select the else branch of [if (content && content.trim())] for a blank
    [content]. *)
Ltac take_else_branch c Hc :=
  cbv zeta;
  destruct c as [?s|]; simpl in Hc;
  [ destruct (truthy _ && truthy (trim _)); [discriminate Hc|] | ].

(** The delete branch, when the deletion succeeds or fails with a code the
    handler swallows: the file is gone and the state push follows. *)
Lemma updateContent_unlink (h : Host) (id p : jsstring)
    (c : option jsstring) (w : World) :
  resolves h id p ->
  blank c = true ->
  (forall e, unlink_error h p = Some e -> code e = Some (js "ENOENT")) ->
  updateContent h id c w =
    postStateToWebview h
      (match unlink_error h p, files w !! p with
       | None, Some _ =>
           mkWorld (delete p (files w))
                   (trace w ++ [ELog (js "Deleted content file: " ++ p)])
       | _, _ => w
       end).
Proof.
  intros Hres Hc Hu.
  unfold updateContent, bind at 1.
  rewrite (getContentPath_resolves _ _ _ _ Hres).
  destruct Hres as (_ & _ & _ & _ & Hp).
  destruct p as [|a p]; [discriminate|].
  cbv beta iota zeta. remember (a :: p) as q eqn:Hq. clear Hq.
  take_else_branch c Hc.
  all: unfold bind, try_catch, fs_unlink, log, emit, throw, ret.
  all: destruct (unlink_error h q) as [e|] eqn:He;
    [ rewrite (Hu e eq_refl);
      destruct (decide _) as [Hne|_]; [contradiction | reflexivity]
    | destruct (files w !! q); [reflexivity|];
      unfold ENOENT; cbn [code];
      destruct (decide _) as [Hne|_]; [contradiction | reflexivity] ].
Qed.

(** The delete branch, when the deletion fails with any other code: the
    error is logged and thrown again, and nothing else happens. *)
Lemma updateContent_rethrow (h : Host) (id p : jsstring)
    (c : option jsstring) (w : World) (e : JsError) :
  resolves h id p ->
  blank c = true ->
  unlink_error h p = Some e ->
  code e <> Some (js "ENOENT") ->
  updateContent h id c w =
    (mkWorld (files w)
       (trace w ++ [ELog (js "Error deleting content file: " ++ message e)]),
     Rejected e).
Proof.
  intros Hres Hc He Hcode.
  unfold updateContent, bind at 1.
  rewrite (getContentPath_resolves _ _ _ _ Hres).
  destruct Hres as (_ & _ & _ & _ & Hp).
  destruct p as [|a p]; [discriminate|].
  cbv beta iota zeta. remember (a :: p) as q eqn:Hq. clear Hq.
  take_else_branch c Hc.
  all: unfold bind, try_catch, fs_unlink, log, emit, throw, ret.
  all: rewrite He.
  all: destruct (decide _) as [_|Heq]; [reflexivity | contradiction].
Qed.

(** The write branch, when the file system refuses the write: the
    rejection leaves the method before the log line and the state push. *)
Lemma updateContent_write_rejected (h : Host) (id p c : jsstring) (w : World)
    (e : JsError) :
  resolves h id p ->
  truthy (trim c) = true ->
  writeFile_error h p = Some e ->
  updateContent h id (Some c) w = (w, Rejected e).
Proof.
  intros Hres Hc Hw.
  unfold updateContent, bind at 1.
  rewrite (getContentPath_resolves _ _ _ _ Hres).
  destruct Hres as (_ & _ & _ & _ & Hp).
  destruct p as [|a p]; [discriminate|].
  rewrite (blank_Some_false _ Hc).
  unfold bind, fs_writeFile. rewrite Hw. reflexivity.
Qed.

Lemma readContent_resolves (h : Host) (id p : jsstring) (w : World) :
  resolves h id p ->
  readContent h id w = (w, Resolved (default [] (files w !! p))).
Proof.
  intros Hres. unfold readContent, bind at 1.
  rewrite (getContentPath_resolves _ _ _ _ Hres).
  destruct Hres as (_ & _ & _ & _ & Hp).
  destruct p as [|a p]; [discriminate | reflexivity].
Qed.

(** A content argument is blank or has a truthy trimmed form. *)
Lemma blank_or_not (c : option jsstring) :
  blank c = true \/ exists s, c = Some s /\ truthy (trim s) = true.
Proof.
  destruct c as [s|]; [|left; reflexivity].
  unfold blank. destruct (truthy s) eqn:Hs, (truthy (trim s)) eqn:Ht; simpl; eauto.
Qed.

Lemma quiet_refl (w : World) : quiet w w.
Proof. exists []. rewrite app_nil_r. split; reflexivity. Qed.

Lemma quiet_trans (w1 w2 w3 : World) : quiet w1 w2 -> quiet w2 w3 -> quiet w1 w3.
Proof.
  intros (n1 & H1 & P1) (n2 & H2 & P2). exists (n1 ++ n2).
  rewrite H2, H1, <- app_assoc, posted_app, P1, P2. split; reflexivity.
Qed.

Lemma quiet_step (w : World) (fs : gmap jsstring jsstring) (ev : Event) :
  posted [ev] = [] -> quiet w (mkWorld fs (trace w ++ [ev])).
Proof. intros H. exists [ev]. split; [reflexivity | exact H]. Qed.

Lemma quiet_files (w : World) (fs : gmap jsstring jsstring) :
  quiet w (mkWorld fs (trace w)).
Proof. exists []. simpl. rewrite app_nil_r. split; reflexivity. Qed.

Ltac quiet_chain :=
  first
    [ apply quiet_refl
    | apply quiet_files
    | unfold quiet; cbn [trace files]; eexists;
      split; [rewrite <- ?app_assoc; reflexivity | reflexivity] ].

Lemma getContentPath_quiet (h : Host) (id : jsstring) (w : World) :
  quiet w (getContentPath h id w).1.
Proof.
  unfold getContentPath, ensureSettingsDirectoryExists, bind, ret, throw, log, emit.
  repeat case_match; simplify_eq; cbn [fst snd trace files]; quiet_chain.
Qed.

Lemma readContent_quiet (h : Host) (id : jsstring) (w : World) :
  quiet w (readContent h id w).1.
Proof.
  unfold readContent, bind at 1.
  pose proof (getContentPath_quiet h id w) as Hq.
  destruct (getContentPath h id w) as [w1 [[p|]|e]]; simpl in Hq |- *;
    [destruct p|..]; exact Hq.
Qed.

Lemma updateContent_quiet (h : Host) (id : jsstring) (c : option jsstring)
    (w : World) :
  quiet w (updateContent h id c w).1.
Proof.
  unfold updateContent, bind at 1.
  pose proof (getContentPath_quiet h id w) as Hq.
  destruct (getContentPath h id w) as [w1 [[p|]|e]]; simpl in Hq |- *;
    [destruct p as [|a p]|..]; try exact Hq;
    try (eapply quiet_trans; [exact Hq|]; apply quiet_step; reflexivity).
  eapply quiet_trans; [exact Hq|]. clear Hq.
  unfold postStateToWebview, try_catch, bind, fs_writeFile, fs_unlink, log,
    emit, throw, ret.
  repeat case_match; simplify_eq; cbn [fst snd trace files]; quiet_chain.
Qed.

Lemma plainHost_resolves :
  resolves plainHost (js "customInstructions") instructionsPath.
Proof.
  split; [reflexivity|]. exists (js "/storage/settings").
  repeat split; reflexivity.
Qed.

Lemma lockedHost_resolves :
  resolves lockedHost (js "customInstructions") instructionsPath.
Proof.
  split; [reflexivity|]. exists (js "/storage/settings").
  repeat split; reflexivity.
Qed.

(** C2. [refreshContent] never reports a failure. Whatever the host answers,
    the messages it posts during a call are exactly one
    [contentRefreshed] with [success: true] when the call completes and none
    at all when it rejects; a rejection of the read or of the update step is
    the rejection of the call, with the world as that step left it. *)
Theorem refreshContent_never_reports_failure
    (h : Host) (id : jsstring) (w : World) :
  (exists new,
     trace (refreshContent h id w).1 = trace w ++ new /\
     posted new =
       match (refreshContent h id w).2 with
       | Resolved _ => [contentRefreshed id true]
       | Rejected _ => []
       end) /\
  match readContent h id w with
  | (w1, Rejected e) => refreshContent h id w = (w1, Rejected e)
  | (w1, Resolved c) =>
      match updateContent h id (Some c) w1 with
      | (w2, Rejected e) => refreshContent h id w = (w2, Rejected e)
      | (w2, Resolved _) => (refreshContent h id w).2 = Resolved tt
      end
  end.
Proof.
  unfold refreshContent, bind.
  pose proof (readContent_quiet h id w) as Hr.
  destruct (readContent h id w) as [w1 [c|e]]; cbn [fst snd] in *.
  - pose proof (updateContent_quiet h id (Some c) w1) as Hu.
    destruct (updateContent h id (Some c) w1) as [w2 [[]|e]]; cbn [fst snd] in *.
    + split; [|reflexivity].
      destruct (quiet_trans _ _ _ Hr Hu) as (new & Hnew & Hposted).
      exists (new ++ [EPostMessage (contentRefreshed id true)]).
      unfold postMessageToWebview, emit; cbn [fst trace].
      rewrite Hnew, posted_app, Hposted, <- app_assoc. split; reflexivity.
    + split; [|reflexivity]. exact (quiet_trans _ _ _ Hr Hu).
  - split; [|reflexivity]. exact Hr.
Qed.

(** C3. Refreshing a resolvable document that holds ["  hello  \n"], on a
    host that accepts the write and the state push, leaves the file holding
    exactly ["hello"], touches no other file, and posts
    [{type: "contentRefreshed", contentId: id, success: true}]. *)
Theorem refreshContent_normalises_hello
    (h : Host) (id p : jsstring) (w : World) :
  resolves h id p ->
  files w !! p = Some paddedHello ->
  writeFile_error h p = None ->
  postState_error h = None ->
  (refreshContent h id w).2 = Resolved tt /\
  files (refreshContent h id w).1 = <[p := js "hello"]> (files w) /\
  files (refreshContent h id w).1 !! p = Some (js "hello") /\
  posted (trace (refreshContent h id w).1) =
    posted (trace w) ++ [contentRefreshed id true].
Proof.
  intros Hres Hfile Hw Hpost.
  assert (Heq : refreshContent h id w =
            (mkWorld (<[p := js "hello"]> (files w))
               (trace w ++ [ELog (js "Updated content file: " ++ p);
                            EPostState;
                            EPostMessage (contentRefreshed id true)]),
             Resolved tt)).
  { unfold refreshContent, bind.
    rewrite (readContent_resolves _ _ _ _ Hres), Hfile.
    change (default [] (Some paddedHello)) with paddedHello.
    rewrite (updateContent_write h id p paddedHello w Hres eq_refl Hw).
    rewrite postStateToWebview_eq, Hpost.
    unfold postMessageToWebview, emit; cbn [fst snd files trace].
    change (toWellFormed (trim paddedHello)) with (js "hello").
    rewrite <- !app_assoc. reflexivity. }
  rewrite Heq; cbn [fst snd files trace].
  rewrite lookup_insert_eq, posted_app. repeat split; reflexivity.
Qed.

Lemma refreshContent_normalises_hello_witness :
  resolves plainHost (js "customInstructions") instructionsPath /\
  files helloWorld !! instructionsPath = Some paddedHello /\
  (refreshContent plainHost (js "customInstructions") helloWorld).2
    = Resolved tt /\
  files (refreshContent plainHost (js "customInstructions") helloWorld).1
    !! instructionsPath = Some (js "hello").
Proof.
  split; [exact plainHost_resolves|].
  split; [vm_compute; reflexivity|].
  destruct (refreshContent_normalises_hello plainHost
              (js "customInstructions") instructionsPath helloWorld)
    as (H1 & _ & H3 & _).
  - exact plainHost_resolves.
  - vm_compute; reflexivity.
  - reflexivity.
  - reflexivity.
  - split; [exact H1 | exact H3].
Defined.

(** C4, as stated, fails: for an identifier outside the registry
    [updateContent] returns before the state push, and for a deletion the
    file system refuses it throws before it. *)
Lemma updateContent_without_state_push :
  statePushes
    (trace (updateContent plainHost (js "other") (Some (js "text"))
              emptyWorld).1) <> 1%nat /\
  statePushes
    (trace (updateContent lockedHost (js "customInstructions") None
              helloWorld).1) <> 1%nat.
Proof. split; vm_compute; discriminate. Qed.

(** C4, amended. For a resolvable identifier and any content argument, a
    call whose write is accepted (on the write branch), or whose deletion
    succeeds or fails only with [ENOENT] (on the delete branch), issues
    exactly one state push. *)
Theorem updateContent_pushes_state_once
    (h : Host) (id p : jsstring) (c : option jsstring) (w : World) :
  resolves h id p ->
  passes h p c ->
  statePushes (trace (updateContent h id c w).1) = S (statePushes (trace w)).
Proof.
  intros Hres Hpass. unfold passes in Hpass.
  destruct (blank_or_not c) as [Hc | (s & -> & Hs)].
  - rewrite Hc in Hpass.
    rewrite (updateContent_unlink _ _ _ _ _ Hres Hc Hpass), postStateToWebview_eq.
    cbn [fst trace]. rewrite statePushes_app.
    destruct (unlink_error h p), (files w !! p); cbn [trace];
      rewrite ?statePushes_app; simpl; lia.
  - assert (Hb : blank (Some s) = false).
    { cbn [blank]. rewrite (blank_Some_false _ Hs). reflexivity. }
    rewrite Hb in Hpass.
    rewrite (updateContent_write _ _ _ _ _ Hres Hs Hpass), postStateToWebview_eq.
    cbn [fst trace]. rewrite !statePushes_app. simpl. lia.
Qed.

Lemma updateContent_pushes_state_once_witness :
  resolves lockedHost (js "customInstructions") instructionsPath /\
  passes lockedHost instructionsPath (Some paddedHello) /\
  statePushes
    (trace (updateContent lockedHost (js "customInstructions")
              (Some paddedHello) helloWorld).1) = 1%nat /\
  passes readOnlyHost instructionsPath None /\
  statePushes
    (trace (updateContent readOnlyHost (js "customInstructions") None
              helloWorld).1) = 1%nat.
Proof.
  assert (Hro : resolves readOnlyHost (js "customInstructions") instructionsPath).
  { split; [reflexivity|]. exists (js "/storage/settings").
    repeat split; reflexivity. }
  assert (Hw : passes lockedHost instructionsPath (Some paddedHello))
    by reflexivity.
  assert (Hd : passes readOnlyHost instructionsPath None)
    by (intros e He; discriminate He).
  split; [exact lockedHost_resolves|]. split; [exact Hw|]. split.
  - exact (updateContent_pushes_state_once lockedHost
             (js "customInstructions") instructionsPath (Some paddedHello)
             helloWorld lockedHost_resolves Hw).
  - split; [exact Hd|].
    exact (updateContent_pushes_state_once readOnlyHost
             (js "customInstructions") instructionsPath None helloWorld
             Hro Hd).
Defined.

(** C5. For an identifier outside the registry, [readContent],
    [updateContent] and [openContent] leave every file as it was; and when
    the settings directory is found they complete, [readContent] with the
    empty string. *)
Theorem unknown_id_is_inert
    (h : Host) (id : jsstring) (c : option jsstring) (w : World) :
  id <> GlobalContentIds_customInstructions h ->
  files (readContent h id w).1 = files w /\
  files (updateContent h id c w).1 = files w /\
  files (openContent h id w).1 = files w /\
  (forall dir,
     getSettingsDirectoryPath h (globalStorageUriFsPath h) = inr dir ->
     (readContent h id w).2 = Resolved [] /\
     (updateContent h id c w).2 = Resolved tt /\
     (openContent h id w).2 = Resolved tt).
Proof.
  intros Hne.
  unfold readContent, updateContent, openContent, bind.
  rewrite (getContentPath_unknown _ _ _ Hne).
  destruct (getSettingsDirectoryPath h _) as [e|dir'];
    cbn [fst snd files log emit ret].
  - do 3 (split; [reflexivity|]). intros dir Hdir. discriminate Hdir.
  - do 3 (split; [reflexivity|]). intros dir _. repeat split.
Qed.

Lemma unknown_id_is_inert_witness :
  js "other" <> GlobalContentIds_customInstructions plainHost /\
  (readContent plainHost (js "other") helloWorld).2 = Resolved [] /\
  files (updateContent plainHost (js "other") (Some (js "text"))
           helloWorld).1 = files helloWorld /\
  files (openContent plainHost (js "other") helloWorld).1 = files helloWorld.
Proof.
  assert (Hne : js "other" <> GlobalContentIds_customInstructions plainHost)
    by (vm_compute; discriminate).
  split; [exact Hne|].
  destruct (unknown_id_is_inert plainHost (js "other") (Some (js "text"))
              helloWorld Hne) as (_ & Hu & Ho & Hdir).
  destruct (Hdir (js "/storage/settings") eq_refl) as (Hr & _ & _).
  split; [exact Hr|]. split; [exact Hu | exact Ho].
Defined.

(** C8, as stated, fails: the write is UTF-8, which cannot hold a lone
    surrogate. After [updateContent(id, " \ud800x ")] the read returns
    ["\ufffdx"], not the trimmed content ["\ud800x"]. *)
Lemma roundtrip_loses_lone_surrogate :
  resolves plainHost (js "customInstructions") instructionsPath /\
  truthy (trim loneSurrogate) = true /\
  trim loneSurrogate = [55296; 120] /\
  (readContent plainHost (js "customInstructions")
     (updateContent plainHost (js "customInstructions") (Some loneSurrogate)
        emptyWorld).1).2 = Resolved [65533; 120] /\
  (readContent plainHost (js "customInstructions")
     (updateContent plainHost (js "customInstructions") (Some loneSurrogate)
        emptyWorld).1).2 <> Resolved (trim loneSurrogate).
Proof.
  split; [exact plainHost_resolves|].
  split; [reflexivity|]. split; [reflexivity|].
  split; [vm_compute; reflexivity | vm_compute; discriminate].
Qed.

(** C8, amended. After [updateContent(id, C)] with a resolvable identifier,
    a non-blank [C] and an accepted write, [readContent(id)] returns the
    trimmed [C] with every lone surrogate replaced by U+FFFD, and so
    exactly the trimmed [C] when [C] has no lone surrogate; the update
    itself completes when the state push is accepted. *)
Theorem write_then_read_roundtrip
    (h : Host) (id p C : jsstring) (w : World) :
  resolves h id p ->
  truthy (trim C) = true ->
  writeFile_error h p = None ->
  (readContent h id (updateContent h id (Some C) w).1).2
    = Resolved (toWellFormed (trim C)) /\
  (wellFormed C ->
   (readContent h id (updateContent h id (Some C) w).1).2 = Resolved (trim C)) /\
  (postState_error h = None ->
   (updateContent h id (Some C) w).2 = Resolved tt).
Proof.
  intros Hres HC Hw.
  rewrite (updateContent_write _ _ _ _ _ Hres HC Hw), postStateToWebview_eq.
  cbn [fst snd].
  assert (Hread : forall t,
            (readContent h id
               (mkWorld (<[p := toWellFormed (trim C)]> (files w)) t)).2
            = Resolved (toWellFormed (trim C))).
  { intros t. rewrite (readContent_resolves _ _ _ _ Hres). cbn [snd files].
    rewrite lookup_insert_eq. reflexivity. }
  cbn [files trace]. split; [|split].
  - apply Hread.
  - intros Hwf. rewrite Hread, (wellFormed_trim C Hwf). reflexivity.
  - intros ->. reflexivity.
Qed.

Lemma write_then_read_roundtrip_witness :
  resolves plainHost (js "customInstructions") instructionsPath /\
  truthy (trim paddedHello) = true /\
  wellFormed paddedHello /\
  (readContent plainHost (js "customInstructions")
     (updateContent plainHost (js "customInstructions") (Some paddedHello)
        emptyWorld).1).2 = Resolved (trim paddedHello).
Proof.
  split; [exact plainHost_resolves|]. split; [reflexivity|].
  split; [reflexivity|].
  destruct (write_then_read_roundtrip plainHost (js "customInstructions")
              instructionsPath paddedHello emptyWorld plainHost_resolves
              eq_refl eq_refl) as (_ & H & _).
  exact (H eq_refl).
Defined.

(** C9. Deleting twice in a row with a resolvable identifier: the second
    [updateContent(id, undefined)] ends as the first did, so it raises
    nothing of its own. With a file system that refuses a deletion only
    when the file is absent, and an accepted state push, both calls
    complete; the file is absent after the first, and the second, whose
    [unlink] fails with [ENOENT], changes no file and logs nothing: it only
    pushes the state. *)
Theorem delete_twice_never_raises
    (h : Host) (id p : jsstring) (w : World) :
  resolves h id p ->
  let w1 := (updateContent h id None w).1 in
  let w2 := (updateContent h id None w1).1 in
  (updateContent h id None w1).2 = (updateContent h id None w).2 /\
  (unlink_error h p = None ->
   postState_error h = None ->
   (updateContent h id None w).2 = Resolved tt /\
   (updateContent h id None w1).2 = Resolved tt /\
   files w1 !! p = None /\
   fs_unlink h p w1 = (w1, Rejected (ENOENT p)) /\
   files w2 = files w1 /\
   trace w2 = trace w1 ++ [EPostState]).
Proof.
  intros Hres w1 w2. split.
  - subst w1 w2.
    destruct (unlink_error h p) as [e|] eqn:He.
    + destruct (decide (code e = Some (js "ENOENT"))) as [Hcode|Hcode].
      * assert (Hsw : forall e', unlink_error h p = Some e' ->
                                 code e' = Some (js "ENOENT"))
          by (intros e' He'; rewrite He in He'; congruence).
        rewrite !(updateContent_unlink _ _ _ None _ Hres eq_refl Hsw).
        rewrite !postStateToWebview_eq. reflexivity.
      * rewrite !(updateContent_rethrow _ _ _ None _ _ Hres eq_refl He Hcode).
        reflexivity.
    + assert (Hsw : forall e', unlink_error h p = Some e' ->
                               code e' = Some (js "ENOENT"))
        by (intros e' He'; rewrite He in He'; discriminate He').
      rewrite !(updateContent_unlink _ _ _ None _ Hres eq_refl Hsw).
      rewrite !postStateToWebview_eq. reflexivity.
  - intros Hu Hpost.
    assert (Hsw : forall e, unlink_error h p = Some e -> code e = Some (js "ENOENT"))
      by (intros e He; rewrite Hu in He; discriminate He).
    assert (Hgone : files w1 !! p = None).
    { subst w1.
      rewrite (updateContent_unlink _ _ _ None w Hres eq_refl Hsw).
      rewrite postStateToWebview_eq, Hu. cbn [fst files].
      destruct (files w !! p) eqn:Hf; cbn [files];
        [apply lookup_delete_eq | exact Hf]. }
    assert (H2 : updateContent h id None w1 =
                   (mkWorld (files w1) (trace w1 ++ [EPostState]), Resolved tt)).
    { rewrite (updateContent_unlink _ _ _ None w1 Hres eq_refl Hsw).
      rewrite postStateToWebview_eq, Hu, Hgone, Hpost. reflexivity. }
    subst w2. rewrite H2. cbn [fst snd files trace].
    split.
    { subst w1.
      rewrite (updateContent_unlink _ _ _ None w Hres eq_refl Hsw).
      rewrite postStateToWebview_eq, Hpost. reflexivity. }
    split; [reflexivity|]. split; [exact Hgone|].
    split; [|split; reflexivity].
    unfold fs_unlink. rewrite Hu, Hgone. reflexivity.
Qed.

Lemma delete_twice_never_raises_witness :
  resolves plainHost (js "customInstructions") instructionsPath /\
  (updateContent plainHost (js "customInstructions") None helloWorld).2
    = Resolved tt /\
  (updateContent plainHost (js "customInstructions") None
     (updateContent plainHost (js "customInstructions") None helloWorld).1).2
    = Resolved tt.
Proof.
  split; [exact plainHost_resolves|].
  destruct (delete_twice_never_raises plainHost (js "customInstructions")
              instructionsPath helloWorld plainHost_resolves) as (_ & Hboth).
  destruct (Hboth eq_refl eq_refl) as (H1 & H2 & _).
  split; [exact H1 | exact H2].
Defined.

(** C10. On the delete branch of a resolvable identifier, a deletion that
    fails with a code other than [ENOENT] is logged and thrown again: the
    call rejects with that very error, the log line is the only thing
    added to the trace, no file changes, and so no state push is issued.
    On that branch the state push is missing exactly in this case. *)
Theorem delete_failure_skips_state_push
    (h : Host) (id p : jsstring) (c : option jsstring) (w : World) :
  resolves h id p ->
  blank c = true ->
  (forall e,
     unlink_error h p = Some e ->
     code e <> Some (js "ENOENT") ->
     updateContent h id c w =
       (mkWorld (files w)
          (trace w ++ [ELog (js "Error deleting content file: " ++ message e)]),
        Rejected e)) /\
  (statePushes (trace (updateContent h id c w).1) = statePushes (trace w) <->
   exists e, unlink_error h p = Some e /\ code e <> Some (js "ENOENT")).
Proof.
  intros Hres Hc. split.
  - intros e He Hcode. exact (updateContent_rethrow _ _ _ _ _ _ Hres Hc He Hcode).
  - destruct (unlink_error h p) as [e|] eqn:He.
    + destruct (decide (code e = Some (js "ENOENT"))) as [Hcode|Hcode].
      * assert (Hsw : forall e', unlink_error h p = Some e' ->
                                 code e' = Some (js "ENOENT"))
          by (intros e' He'; rewrite He in He'; congruence).
        split.
        -- intros Hsame.
           rewrite (updateContent_unlink _ _ _ _ _ Hres Hc Hsw) in Hsame.
           rewrite postStateToWebview_eq, He in Hsame. cbn [fst trace] in Hsame.
           rewrite statePushes_app in Hsame. simpl in Hsame. lia.
        -- intros (e' & He' & Hcode'). congruence.
      * rewrite (updateContent_rethrow _ _ _ _ _ _ Hres Hc He Hcode).
        cbn [fst trace]. rewrite statePushes_app. simpl. split.
        -- intros _. exists e. split; [reflexivity | exact Hcode].
        -- intros _. lia.
    + assert (Hsw : forall e', unlink_error h p = Some e' ->
                               code e' = Some (js "ENOENT"))
        by (intros e' He'; rewrite He in He'; discriminate He').
      split.
      * intros Hsame.
        rewrite (updateContent_unlink _ _ _ _ _ Hres Hc Hsw) in Hsame.
        rewrite postStateToWebview_eq, He in Hsame. cbn [fst trace] in Hsame.
        destruct (files w !! p); cbn [trace] in Hsame;
          rewrite !statePushes_app in Hsame; simpl in Hsame; lia.
      * intros (e' & He' & _). discriminate He'.
Qed.

Lemma delete_failure_skips_state_push_witness :
  resolves lockedHost (js "customInstructions") instructionsPath /\
  blank None = true /\
  updateContent lockedHost (js "customInstructions") None helloWorld =
    (mkWorld (files helloWorld)
       (trace helloWorld ++
        [ELog (js "Error deleting content file: " ++ message EACCES)]),
     Rejected EACCES).
Proof.
  split; [exact lockedHost_resolves|]. split; [reflexivity|].
  destruct (delete_failure_skips_state_push lockedHost
              (js "customInstructions") instructionsPath None helloWorld)
    as (Hthrow & _).
  - exact lockedHost_resolves.
  - reflexivity.
  - apply (Hthrow EACCES); [reflexivity | vm_compute; discriminate].
Defined.

End ContentManagerFacts.

(** * Properties of the refresh coordinator *)

Section RefreshableContentFacts.

Import RefreshableContent.

(** Firing timers only ever touches [showRefreshSuccess]. *)
Lemma fire_all_frame (ts : list Timer) (c : Component) :
  isRefreshing (fold_left fire ts c) = isRefreshing c /\
  props_contentId (fold_left fire ts c) = props_contentId c /\
  mounted (fold_left fire ts c) = mounted c /\
  listener (fold_left fire ts c) = listener c /\
  timers (fold_left fire ts c) = timers c /\
  nextHandle (fold_left fire ts c) = nextHandle c /\
  clock (fold_left fire ts c) = clock c /\
  sent (fold_left fire ts c) = sent c.
Proof.
  revert c. induction ts as [|t ts IH]; intros c; [repeat split|].
  cbn [fold_left]. destruct (IH (fire c t)) as (H1 & H2 & H3 & H4 & H5 & H6 & H7 & H8).
  rewrite H1, H2, H3, H4, H5, H6, H7, H8.
  unfold fire, setShowRefreshSuccess. destruct (mounted c) eqn:Hm; repeat split.
  cbn [mounted]. exact Hm.
Qed.

(** Once a timer has fired on a mounted component the banner is off. *)
Lemma fire_all_banner (ts : list Timer) (c : Component) :
  mounted c = true -> ts <> [] ->
  showRefreshSuccess (fold_left fire ts c) = false.
Proof.
  revert c. induction ts as [|t ts IH]; intros c Hm Hne; [contradiction|].
  cbn [fold_left]. destruct ts as [|t' ts].
  - cbn [fold_left]. unfold fire, setShowRefreshSuccess. rewrite Hm. reflexivity.
  - apply IH; [|discriminate].
    unfold fire, setShowRefreshSuccess. rewrite Hm. reflexivity.
Qed.

Lemma filter_none {A} (f : A -> bool) (l : list A) :
  (forall x, In x l -> f x = false) -> List.filter f l = [].
Proof.
  induction l as [|x l IH]; intros H; [reflexivity|].
  cbn [List.filter]. rewrite (H x (or_introl eq_refl)).
  apply IH. intros y Hy. apply H. right. exact Hy.
Qed.

(** What a matching success message does to a bound coordinator. *)
Lemma dispatch_success (id : jsstring) (c : Component) :
  boundTo id c ->
  dispatchMessage (contentRefreshed id true) c =
    mkComponent false true (props_contentId c) true (Some id)
      (timers c ++ [mkTimer (nextHandle c) (clock c + 3000)])
      (nextHandle c + 1) (clock c) (sent c).
Proof.
  intros [Hm Hl]. unfold dispatchMessage. rewrite Hl.
  unfold handleMessage, contentRefreshed. cbn [type Shared.contentId success].
  rewrite !bool_decide_eq_true_2 by reflexivity. cbn [andb].
  unfold setIsRefreshing. rewrite Hm.
  unfold setShowRefreshSuccess. cbn [mounted].
  unfold setTimeout. cbn. rewrite Hl. reflexivity.
Qed.

Lemma render_keeps_timers (id : jsstring) (c : Component) :
  timers (render id c) = timers c.
Proof.
  unfold render. destruct (mounted c); [|reflexivity].
  destruct (decide _); reflexivity.
Qed.

Lemma unmount_keeps_timers (c : Component) : timers (unmount c) = timers c.
Proof. reflexivity. Qed.

(** The refresh action raises [isRefreshing] at once and sends the request
    for the bound identifier. *)
Lemma refreshContent_sets_flag (c : Component) :
  mounted c = true ->
  isRefreshing (refreshContent c) = true /\
  sent (refreshContent c) =
    sent c ++ [mkWebviewMessage (js "refreshContent") (props_contentId c)].
Proof.
  intros Hm. unfold refreshContent, setIsRefreshing. rewrite Hm.
  split; reflexivity.
Qed.

(** C1, at the failing input. No render and no unmount ever removes a
    pending timer. With the banner showing for ["a"], re-rendering with
    ["b"] after one second leaves the timer pending and the banner on, and
    two seconds later the timer fires and turns the banner off, after the
    rebinding; unmounting leaves the timer pending as well. The closure
    [handleMessage] returned, which nothing runs, would have cleared it. *)
Theorem banner_timer_survives_rebinding :
  (forall id c, timers (render id c) = timers c) /\
  (forall c, timers (unmount c) = timers c) /\
  let shown := dispatchMessage (contentRefreshed (js "a") true) (mount (js "a")) in
  let rebound := render (js "b") (advance 1000 shown) in
  let unmounted := unmount (advance 1000 shown) in
  timers shown = [mkTimer 0 3000] /\
  listener rebound = Some (js "b") /\
  timers rebound = [mkTimer 0 3000] /\
  showRefreshSuccess rebound = true /\
  showRefreshSuccess (advance 2000 rebound) = false /\
  timers unmounted = [mkTimer 0 3000] /\
  (handleMessage (js "a") (contentRefreshed (js "a") true) (mount (js "a"))).2
    = Some (ClearTimeout 0) /\
  timers (runCleanup (ClearTimeout 0) shown) = [].
Proof.
  split; [exact render_keeps_timers|]. split; [exact unmount_keeps_timers|].
  vm_compute. repeat split; reflexivity.
Qed.

(** C6. A bound coordinator that receives
    [{type: "contentRefreshed", contentId: id, success: true}] has
    [isRefreshing] false and [showRefreshSuccess] true and one more timer,
    due 3000 ms later. When those 3000 ms have passed the banner is off and
    nothing else of the coordinator has changed; before that, as long as
    no earlier timer comes due, the banner stays on. *)
Theorem success_shows_banner_for_3000ms (id : jsstring) (c : Component) :
  boundTo id c ->
  let shown := dispatchMessage (contentRefreshed id true) c in
  isRefreshing shown = false /\
  showRefreshSuccess shown = true /\
  timers shown = timers c ++ [mkTimer (nextHandle c) (clock c + 3000)] /\
  (let later := advance 3000 shown in
   showRefreshSuccess later = false /\
   isRefreshing later = false /\
   props_contentId later = props_contentId shown /\
   mounted later = true /\
   listener later = Some id /\
   sent later = sent shown /\
   clock later = clock c + 3000) /\
  (forall d,
     d < 3000 ->
     (forall t, In t (timers c) -> clock c + d < due t) ->
     showRefreshSuccess (advance d shown) = true /\
     isRefreshing (advance d shown) = false /\
     timers (advance d shown) = timers shown).
Proof.
  intros Hb shown. subst shown. rewrite (dispatch_success _ _ Hb).
  cbn [isRefreshing showRefreshSuccess timers props_contentId sent].
  do 3 (split; [reflexivity|]). split.
  - unfold advance.
    cbn [isRefreshing showRefreshSuccess timers props_contentId sent clock
         mounted listener nextHandle].
    match goal with
    | |- context [fold_left fire ?ts ?c0] =>
        destruct (fire_all_frame ts c0) as (H1 & H2 & H3 & H4 & _ & _ & H7 & H8);
        pose proof (fire_all_banner ts c0 eq_refl) as Hoff
    end.
    rewrite H1, H2, H3, H4, H7, H8.
    split; [|repeat split].
    apply Hoff. intros Hnil.
    assert (Hin : In (mkTimer (nextHandle c) (clock c + 3000))
                    (List.filter (isDue (clock c + 3000))
                       (timers c ++ [mkTimer (nextHandle c) (clock c + 3000)]))).
    { apply filter_In. split.
      - apply in_or_app. right. left. reflexivity.
      - unfold isDue. cbn [due]. apply N.leb_refl. }
    rewrite Hnil in Hin. destruct Hin.
  - intros d Hd Hpending. unfold advance.
    cbn [isRefreshing showRefreshSuccess timers props_contentId sent clock
         mounted listener nextHandle].
    assert (Hnone : List.filter (isDue (clock c + d))
                      (timers c ++ [mkTimer (nextHandle c) (clock c + 3000)]) = []).
    { apply filter_none. intros t Ht. unfold isDue. apply N.leb_gt.
      apply in_app_or in Ht. destruct Ht as [Ht|[<-|[]]].
      - apply Hpending. exact Ht.
      - cbn [due]. lia. }
    assert (Hall : List.filter (fun t => negb (isDue (clock c + d) t))
                     (timers c ++ [mkTimer (nextHandle c) (clock c + 3000)])
                   = timers c ++ [mkTimer (nextHandle c) (clock c + 3000)]).
    { apply forallb_filter_id. apply forallb_forall. intros t Ht.
      unfold isDue. apply negb_true_iff, N.leb_gt.
      apply in_app_or in Ht. destruct Ht as [Ht|[<-|[]]].
      - apply Hpending. exact Ht.
      - cbn [due]. lia. }
    rewrite Hnone, Hall. cbn [fold_left]. repeat split.
Qed.

Lemma success_shows_banner_for_3000ms_witness :
  boundTo (js "a") (mount (js "a")) /\
  showRefreshSuccess
    (dispatchMessage (contentRefreshed (js "a") true) (mount (js "a"))) = true /\
  showRefreshSuccess
    (advance 3000
       (dispatchMessage (contentRefreshed (js "a") true) (mount (js "a"))))
    = false.
Proof.
  assert (Hb : boundTo (js "a") (mount (js "a"))) by (split; reflexivity).
  split; [exact Hb|].
  destruct (success_shows_banner_for_3000ms (js "a") (mount (js "a")) Hb)
    as (_ & Hon & _ & (Hoff & _) & _).
  split; [exact Hon | exact Hoff].
Defined.

(** C7. A bound coordinator ignores every message that carries another
    [contentId], a [contentRefreshed] answer in particular: the component
    and its timers are exactly what they were. *)
Theorem other_contentId_is_ignored
    (id : jsstring) (m : ExtensionMessage) (c : Component) :
  boundTo id c ->
  Shared.contentId m <> Some id ->
  dispatchMessage m c = c.
Proof.
  intros [_ Hl] Hne. unfold dispatchMessage. rewrite Hl.
  unfold handleMessage.
  rewrite (bool_decide_eq_false_2 _ Hne), andb_false_r. reflexivity.
Qed.

Lemma other_contentId_is_ignored_witness :
  boundTo (js "a") (mount (js "a")) /\
  Shared.contentId (contentRefreshed (js "b") true) <> Some (js "a") /\
  dispatchMessage (contentRefreshed (js "b") true) (mount (js "a"))
    = mount (js "a").
Proof.
  assert (Hb : boundTo (js "a") (mount (js "a"))) by (split; reflexivity).
  assert (Hne : Shared.contentId (contentRefreshed (js "b") true) <> Some (js "a"))
    by (vm_compute; discriminate).
  split; [exact Hb|]. split; [exact Hne|].
  exact (other_contentId_is_ignored (js "a") (contentRefreshed (js "b") true)
           (mount (js "a")) Hb Hne).
Defined.

End RefreshableContentFacts.

(** * Further properties: what [trim] leaves *)

Section TrimFacts.

Lemma trimStart_keeps (c : N) (s : jsstring) :
  isWhiteSpace c = false -> trimStart (c :: s) = c :: s.
Proof. intros H. cbn [trimStart]. rewrite H. reflexivity. Qed.

(** What [trimStart] returns is empty or begins with a character that is
    not white space. *)
Lemma trimStart_head (s : jsstring) :
  trimStart s = [] \/
  exists c t, trimStart s = c :: t /\ isWhiteSpace c = false.
Proof.
  induction s as [|c s IH]; [left; reflexivity|].
  cbn [trimStart]. destruct (isWhiteSpace c) eqn:Hc; [exact IH|].
  right. exists c, s. split; [reflexivity | exact Hc].
Qed.

(** A last character that is not white space survives [trimStart]. *)
Lemma trimStart_snoc (s : jsstring) (c : N) :
  isWhiteSpace c = false ->
  exists u, trimStart (s ++ [c]) = u ++ [c].
Proof.
  intros Hc. induction s as [|a s IH].
  - exists []. cbn [app trimStart]. rewrite Hc. reflexivity.
  - cbn [app trimStart]. destruct (isWhiteSpace a); [exact IH|].
    exists (a :: s). reflexivity.
Qed.

Lemma trim_nil : trim [] = [].
Proof. reflexivity. Qed.

(** A trimmed text is a fixed point of [trim]. *)
Lemma trimmed_fixed (s : jsstring) : trimmed s = true -> trim s = s.
Proof.
  unfold trimmed. intros H. apply andb_true_iff in H. destruct H as [Hh Hl].
  apply negb_true_iff in Hh. apply negb_true_iff in Hl.
  destruct s as [|c s]; [discriminate Hh|]. cbn [List.hd] in Hh.
  unfold trim, trimEnd. rewrite (trimStart_keeps _ _ Hh).
  destruct (exists_last (l := c :: s)) as (l & x & Hlx); [discriminate|].
  rewrite Hlx in Hl |- *. rewrite last_last in Hl.
  rewrite rev_unit, (trimStart_keeps _ _ Hl).
  cbn [rev]. rewrite rev_involutive. reflexivity.
Qed.

(** [trim] returns the empty text or a trimmed one. *)
Lemma trim_cases (s : jsstring) : trim s = [] \/ trimmed (trim s) = true.
Proof.
  unfold trim, trimEnd.
  destruct (trimStart_head s) as [-> | (c & t & -> & Hc)]; [left; reflexivity|].
  right. cbn [rev].
  destruct (trimStart_snoc (rev t) c Hc) as (u & Hu).
  destruct (trimStart_head (rev t ++ [c])) as [Hnil | (x & v & Hv & Hx)].
  - rewrite Hnil in Hu. destruct u; discriminate Hu.
  - unfold trimmed. apply andb_true_iff. split; apply negb_true_iff.
    + rewrite Hu, rev_unit. exact Hc.
    + rewrite Hv. cbn [rev]. rewrite last_last. exact Hx.
Qed.

Lemma trim_idempotent (s : jsstring) : trim (trim s) = trim s.
Proof.
  destruct (trim_cases s) as [-> | H]; [reflexivity | exact (trimmed_fixed _ H)].
Qed.

Lemma trimmed_truthy (s : jsstring) : trimmed s = true -> truthy s = true.
Proof. destruct s; [discriminate | reflexivity]. Qed.

Lemma truthy_trim_trimmed (s : jsstring) :
  truthy (trim s) = true -> trimmed (trim s) = true.
Proof.
  intros H. destruct (trim_cases s) as [Hn | Ht]; [|exact Ht].
  rewrite Hn in H. discriminate H.
Qed.

End TrimFacts.

(** * Further properties of the content manager *)

Section ContentManagerMore.

Import ContentManager.
Local Open Scope async_scope.

(** A blank argument has nothing left after trimming. *)
Lemma blank_trim (c : option jsstring) :
  blank c = true -> trim (default [] c) = [].
Proof.
  destruct c as [s|]; [|reflexivity].
  change (default [] (Some s)) with s. cbn [blank].
  intros H. apply negb_true_iff, andb_false_iff in H.
  destruct H as [H|H].
  - destruct s; [reflexivity | discriminate H].
  - destruct (trim s); [reflexivity | discriminate H].
Qed.

(** The branch an update takes, told by its content. *)
Lemma blank_truthy_trim (c : option jsstring) :
  blank c = negb (truthy (trim (default [] c))).
Proof.
  destruct c as [s|]; [|reflexivity].
  change (default [] (Some s)) with s. cbn [blank].
  destruct (truthy (trim s)) eqn:Ht.
  - rewrite (truthy_trim _ Ht). reflexivity.
  - rewrite andb_false_r. reflexivity.
Qed.

(** An update whose file operation is not refused, up to the state push. *)
Lemma updateContent_accepted
    (h : Host) (id p : jsstring) (c : option jsstring) (w : World) :
  resolves h id p ->
  notRefused h p c ->
  updateContent h id c w =
    postStateToWebview h
      (mkWorld (store p (trim (default [] c)) (files w))
               (trace w ++ updateLog p c w)).
Proof.
  intros Hres Hok. unfold notRefused in Hok.
  destruct (blank_or_not c) as [Hc | (s & -> & Hs)].
  - rewrite Hc in Hok.
    assert (Hsw : forall e, unlink_error h p = Some e -> code e = Some (js "ENOENT"))
      by (intros e He; rewrite Hok in He; discriminate He).
    rewrite (updateContent_unlink _ _ _ _ _ Hres Hc Hsw), Hok.
    unfold store, updateLog. rewrite (blank_trim _ Hc). cbn [truthy].
    destruct (files w !! p) eqn:Hf; [reflexivity|].
    rewrite (delete_id _ _ Hf), app_nil_r. destruct w; reflexivity.
  - assert (Hb : blank (Some s) = false).
    { cbn [blank]. rewrite (blank_Some_false _ Hs). reflexivity. }
    rewrite Hb in Hok.
    rewrite (updateContent_write _ _ _ _ _ Hres Hs Hok).
    unfold store, updateLog. change (default [] (Some s)) with s.
    rewrite Hs. reflexivity.
Qed.

(** A host that refuses nothing refuses no file operation. *)
Lemma accepting_notRefused (h : Host) (p : jsstring) (c : option jsstring) :
  accepting h p -> notRefused h p c.
Proof.
  intros (Hw & Hu & _). unfold notRefused. destruct (blank c); assumption.
Qed.

Lemma lookup_store (p q t : jsstring) (fs : gmap jsstring jsstring) :
  store p t fs !! q =
    if decide (p = q)
    then (if truthy t then Some (toWellFormed t) else None)
    else fs !! q.
Proof.
  unfold store. destruct (truthy t); destruct (decide (p = q)) as [->|Hne].
  - apply lookup_insert_eq.
  - apply lookup_insert_ne. exact Hne.
  - apply lookup_delete_eq.
  - apply lookup_delete_ne. exact Hne.
Qed.

(** Whatever the host answers, an update leaves the file store as it was
    or with the resolved path rewritten or removed. *)
Lemma updateContent_files
    (h : Host) (id p : jsstring) (c : option jsstring) (w : World) :
  resolves h id p ->
  files (updateContent h id c w).1 = files w \/
  files (updateContent h id c w).1
    = <[p := toWellFormed (trim (default [] c))]> (files w) \/
  files (updateContent h id c w).1 = delete p (files w).
Proof.
  intros Hres.
  destruct (blank_or_not c) as [Hc | (s & -> & Hs)].
  - destruct (unlink_error h p) as [e|] eqn:He.
    + destruct (decide (code e = Some (js "ENOENT"))) as [Hcode|Hcode].
      * assert (Hsw : forall e', unlink_error h p = Some e' ->
                                 code e' = Some (js "ENOENT"))
          by (intros e' He'; rewrite He in He'; congruence).
        rewrite (updateContent_unlink _ _ _ _ _ Hres Hc Hsw), He.
        rewrite postStateToWebview_eq. left. reflexivity.
      * rewrite (updateContent_rethrow _ _ _ _ _ _ Hres Hc He Hcode).
        left. reflexivity.
    + assert (Hsw : forall e', unlink_error h p = Some e' ->
                               code e' = Some (js "ENOENT"))
        by (intros e' He'; rewrite He in He'; discriminate He').
      rewrite (updateContent_unlink _ _ _ _ _ Hres Hc Hsw), He.
      rewrite postStateToWebview_eq. cbn [fst files].
      destruct (files w !! p); [right; right | left]; reflexivity.
  - destruct (writeFile_error h p) as [e|] eqn:Hw.
    + rewrite (updateContent_write_rejected _ _ _ _ _ _ Hres Hs Hw).
      left. reflexivity.
    + rewrite (updateContent_write _ _ _ _ _ Hres Hs Hw), postStateToWebview_eq.
      right. left. reflexivity.
Qed.

(** The file store after a refresh is the one its update step leaves. *)
Lemma refreshContent_files (h : Host) (id p : jsstring) (w : World) :
  resolves h id p ->
  files (refreshContent h id w).1 =
    files (updateContent h id (Some (default [] (files w !! p))) w).1.
Proof.
  intros Hres. unfold refreshContent, bind.
  rewrite (readContent_resolves _ _ _ _ Hres).
  destruct (updateContent h id _ w) as [w' [[]|e]]; reflexivity.
Qed.

(** X1. When the settings directory cannot be determined, every operation
    rejects with that error before doing anything: no file changes and
    nothing is logged, posted or pushed. *)
Theorem settings_failure_stops_every_operation
    (h : Host) (id : jsstring) (c : option jsstring) (w : World) (e : JsError) :
  getSettingsDirectoryPath h (globalStorageUriFsPath h) = inl e ->
  readContent h id w = (w, Rejected e) /\
  updateContent h id c w = (w, Rejected e) /\
  openContent h id w = (w, Rejected e) /\
  refreshContent h id w = (w, Rejected e).
Proof.
  intros He.
  assert (Hp : getContentPath h id w = (w, Rejected e)).
  { unfold getContentPath, ensureSettingsDirectoryExists, bind, throw.
    rewrite He. reflexivity. }
  assert (Hr : readContent h id w = (w, Rejected e)).
  { unfold readContent, bind. rewrite Hp. reflexivity. }
  split; [exact Hr|]. split; [|split].
  - unfold updateContent, bind. rewrite Hp. reflexivity.
  - unfold openContent, bind. rewrite Hp. reflexivity.
  - unfold refreshContent, bind. rewrite Hr. reflexivity.
Qed.

Lemma settings_failure_stops_every_operation_witness :
  refreshContent lostHost (js "customInstructions") helloWorld
    = (helloWorld, Rejected EACCES) /\
  updateContent lostHost (js "customInstructions") None helloWorld
    = (helloWorld, Rejected EACCES).
Proof.
  destruct (settings_failure_stops_every_operation lostHost
              (js "customInstructions") None helloWorld EACCES eq_refl)
    as (_ & Hu & _ & Hf).
  split; [exact Hf | exact Hu].
Defined.

(** X2. Whatever the host answers, reading, updating and refreshing a
    resolvable document leave every file other than the resolved one as it
    was. *)
Theorem other_files_untouched
    (h : Host) (id p q : jsstring) (c : option jsstring) (w : World) :
  resolves h id p ->
  q <> p ->
  files (readContent h id w).1 !! q = files w !! q /\
  files (updateContent h id c w).1 !! q = files w !! q /\
  files (refreshContent h id w).1 !! q = files w !! q.
Proof.
  intros Hres Hne.
  assert (Hupd : forall c', files (updateContent h id c' w).1 !! q = files w !! q).
  { intros c'.
    destruct (updateContent_files h id p c' w Hres) as [-> | [-> | ->]].
    - reflexivity.
    - apply lookup_insert_ne. congruence.
    - apply lookup_delete_ne. congruence. }
  split; [|split].
  - rewrite (readContent_resolves _ _ _ _ Hres). reflexivity.
  - apply Hupd.
  - rewrite (refreshContent_files _ _ _ _ Hres). apply Hupd.
Qed.

Lemma other_files_untouched_witness :
  resolves plainHost (js "customInstructions") instructionsPath /\
  notesPath <> instructionsPath /\
  files (refreshContent plainHost (js "customInstructions") twoFilesWorld).1
    !! notesPath = files twoFilesWorld !! notesPath.
Proof.
  assert (Hne : notesPath <> instructionsPath) by (vm_compute; discriminate).
  split; [exact plainHost_resolves|]. split; [exact Hne|].
  destruct (other_files_untouched plainHost (js "customInstructions")
              instructionsPath notesPath None twoFilesWorld
              plainHost_resolves Hne) as (_ & _ & H).
  exact H.
Defined.

(** X3. After an update whose file operation (the write for non-blank
    content, the deletion otherwise) is not refused, reading the same
    identifier returns the trimmed content with every lone surrogate
    replaced by U+FFFD, whatever the file held before: exactly the trimmed
    content when the content has no lone surrogate, and the empty string,
    with the file gone, when the content was absent, empty or only white
    space. *)
Theorem read_after_update
    (h : Host) (id p : jsstring) (c : option jsstring) (w : World) :
  resolves h id p ->
  notRefused h p c ->
  (readContent h id (updateContent h id c w).1).2
    = Resolved (toWellFormed (trim (default [] c))) /\
  (wellFormed (default [] c) ->
   (readContent h id (updateContent h id c w).1).2
     = Resolved (trim (default [] c))) /\
  (blank c = true ->
   (readContent h id (updateContent h id c w).1).2 = Resolved [] /\
   files (updateContent h id c w).1 !! p = None).
Proof.
  intros Hres Hok.
  assert (Hread : (readContent h id (updateContent h id c w).1).2
                    = Resolved (toWellFormed (trim (default [] c)))).
  { rewrite (updateContent_accepted _ _ _ _ _ Hres Hok), postStateToWebview_eq.
    rewrite (readContent_resolves _ _ _ _ Hres). cbn [fst snd files].
    rewrite lookup_store. destruct (decide (p = p)) as [_|Hne]; [|contradiction].
    destruct (trim (default [] c)); reflexivity. }
  split; [exact Hread|]. split.
  - intros Hwf. rewrite Hread, (wellFormed_trim _ Hwf). reflexivity.
  - intros Hc. rewrite Hread, (blank_trim _ Hc). split; [reflexivity|].
    rewrite (updateContent_accepted _ _ _ _ _ Hres Hok), postStateToWebview_eq.
    cbn [fst files]. rewrite lookup_store, (blank_trim _ Hc).
    destruct (decide (p = p)) as [_|Hne]; [reflexivity | contradiction].
Qed.

Lemma read_after_update_witness :
  resolves readOnlyHost (js "customInstructions") instructionsPath /\
  notRefused readOnlyHost instructionsPath (Some threeSpaces) /\
  (readContent readOnlyHost (js "customInstructions")
     (updateContent readOnlyHost (js "customInstructions") (Some threeSpaces)
        helloWorld).1).2 = Resolved [] /\
  resolves lockedHost (js "customInstructions") instructionsPath /\
  notRefused lockedHost instructionsPath (Some paddedHello) /\
  wellFormed paddedHello /\
  (readContent lockedHost (js "customInstructions")
     (updateContent lockedHost (js "customInstructions") (Some paddedHello)
        twoFilesWorld).1).2 = Resolved (trim paddedHello).
Proof.
  assert (Hro : resolves readOnlyHost (js "customInstructions") instructionsPath).
  { split; [reflexivity|]. exists (js "/storage/settings").
    repeat split; reflexivity. }
  assert (Hd : notRefused readOnlyHost instructionsPath (Some threeSpaces))
    by reflexivity.
  assert (Hw : notRefused lockedHost instructionsPath (Some paddedHello))
    by reflexivity.
  split; [exact Hro|]. split; [exact Hd|]. split.
  { destruct (read_after_update readOnlyHost (js "customInstructions")
                instructionsPath (Some threeSpaces) helloWorld Hro Hd)
      as (_ & _ & Hblank).
    destruct (Hblank eq_refl) as (H & _). exact H. }
  split; [exact lockedHost_resolves|]. split; [exact Hw|].
  split; [reflexivity|].
  destruct (read_after_update lockedHost (js "customInstructions")
              instructionsPath (Some paddedHello) twoFilesWorld
              lockedHost_resolves Hw) as (_ & Hwf & _).
  exact (Hwf eq_refl).
Defined.



(** What a refresh does on a host that refuses nothing. *)
Lemma refreshContent_accepted (h : Host) (id p : jsstring) (w : World) :
  resolves h id p ->
  accepting h p ->
  refreshContent h id w =
    (mkWorld (store p (trim (default [] (files w !! p))) (files w))
       (trace w ++ updateLog p (Some (default [] (files w !! p))) w
          ++ [EPostState; EPostMessage (contentRefreshed id true)]),
     Resolved tt).
Proof.
  intros Hres Hacc.
  pose proof (accepting_notRefused h p (Some (default [] (files w !! p))) Hacc)
    as Hok.
  destruct Hacc as (_ & _ & Hpost).
  unfold refreshContent, bind.
  rewrite (readContent_resolves _ _ _ _ Hres).
  rewrite (updateContent_accepted _ _ _ _ _ Hres Hok).
  rewrite postStateToWebview_eq, Hpost.
  unfold postMessageToWebview, emit. cbn [files trace].
  rewrite <- !app_assoc. reflexivity.
Qed.

Lemma statePushes_updateLog (p : jsstring) (c : option jsstring) (w : World) :
  statePushes (updateLog p c w) = O /\ posted (updateLog p c w) = [].
Proof.
  unfold updateLog.
  destruct (truthy _); [split; reflexivity|].
  destruct (files w !! p); split; reflexivity.
Qed.

(** X5. On a host that refuses nothing, refreshing a resolvable document
    completes, leaves the file holding the trimmed text it held, or no file
    when that text is empty (the document was absent, empty or only white
    space), pushes the state once and posts one [contentRefreshed] with
    [success: true]. *)
Theorem refreshContent_normalises
    (h : Host) (id p : jsstring) (w : World) :
  resolves h id p ->
  accepting h p ->
  (refreshContent h id w).2 = Resolved tt /\
  files (refreshContent h id w).1
    = store p (trim (default [] (files w !! p))) (files w) /\
  (truthy (trim (default [] (files w !! p))) = false ->
   files (refreshContent h id w).1 !! p = None) /\
  statePushes (trace (refreshContent h id w).1) = S (statePushes (trace w)) /\
  posted (trace (refreshContent h id w).1)
    = posted (trace w) ++ [contentRefreshed id true].
Proof.
  intros Hres Hacc. rewrite (refreshContent_accepted _ _ _ _ Hres Hacc).
  cbn [fst snd files trace].
  destruct (statePushes_updateLog p (Some (default [] (files w !! p))) w)
    as (Hs & Hp).
  split; [reflexivity|]. split; [reflexivity|]. split; [|split].
  - intros Ht. unfold store. rewrite Ht. apply lookup_delete_eq.
  - rewrite !statePushes_app, Hs. simpl. lia.
  - rewrite !posted_app, Hp. reflexivity.
Qed.

Lemma refreshContent_normalises_witness :
  resolves plainHost (js "customInstructions") instructionsPath /\
  accepting plainHost instructionsPath /\
  files twoFilesWorld !! instructionsPath = Some threeSpaces /\
  (refreshContent plainHost (js "customInstructions") twoFilesWorld).2
    = Resolved tt /\
  files (refreshContent plainHost (js "customInstructions") twoFilesWorld).1
    !! instructionsPath = None.
Proof.
  assert (Hacc : accepting plainHost instructionsPath)
    by (repeat split; reflexivity).
  split; [exact plainHost_resolves|]. split; [exact Hacc|].
  split; [vm_compute; reflexivity|].
  destruct (refreshContent_normalises plainHost (js "customInstructions")
              instructionsPath twoFilesWorld plainHost_resolves Hacc)
    as (Hr & _ & Hgone & _).
  split; [exact Hr|]. apply Hgone. vm_compute. reflexivity.
Defined.

(** X6. On a host that refuses nothing, a second refresh of a resolvable
    document changes no file: the first one already left the normal form. *)
Theorem refreshContent_idempotent (h : Host) (id p : jsstring) (w : World) :
  resolves h id p ->
  accepting h p ->
  files (refreshContent h id (refreshContent h id w).1).1
    = files (refreshContent h id w).1 /\
  (refreshContent h id (refreshContent h id w).1).2 = Resolved tt.
Proof.
  intros Hres Hacc.
  rewrite (refreshContent_accepted h id p (refreshContent h id w).1 Hres Hacc).
  rewrite (refreshContent_accepted h id p w Hres Hacc).
  cbn [fst snd files]. split; [|reflexivity].
  rewrite lookup_store. destruct (decide (p = p)) as [_|Hne]; [|contradiction].
  set (t := trim (default [] (files w !! p))).
  destruct (truthy t) eqn:Ht.
  - change (default [] (Some (toWellFormed t))) with (toWellFormed t).
    assert (Hfix : trim (toWellFormed t) = toWellFormed t).
    { apply trimmed_fixed. rewrite trimmed_toWellFormed.
      subst t. apply truthy_trim_trimmed. exact Ht. }
    rewrite Hfix. unfold store.
    rewrite truthy_toWellFormed, Ht, toWellFormed_idempotent.
    apply insert_insert_eq.
  - change (default [] None) with (@nil N). rewrite trim_nil.
    unfold store. rewrite Ht. cbn [truthy]. apply delete_delete_eq.
Qed.

Lemma refreshContent_idempotent_witness :
  resolves plainHost (js "customInstructions") instructionsPath /\
  accepting plainHost instructionsPath /\
  files (refreshContent plainHost (js "customInstructions")
           (refreshContent plainHost (js "customInstructions") helloWorld).1).1
    = files (refreshContent plainHost (js "customInstructions") helloWorld).1.
Proof.
  assert (Hacc : accepting plainHost instructionsPath)
    by (repeat split; reflexivity).
  split; [exact plainHost_resolves|]. split; [exact Hacc|].
  destruct (refreshContent_idempotent plainHost (js "customInstructions")
              instructionsPath helloWorld plainHost_resolves Hacc) as (H & _).
  exact H.
Defined.

(** X7. Refreshing an identifier outside the registry still reports
    success: when the settings directory is found the call completes, logs
    the unknown identifier (once for the read, once for the update) and the
    undetermined path, pushes no state, changes no file, and posts
    [contentRefreshed] with [success: true]. *)
Theorem refreshContent_unknown_id_reports_success
    (h : Host) (id dir : jsstring) (w : World) :
  id <> GlobalContentIds_customInstructions h ->
  getSettingsDirectoryPath h (globalStorageUriFsPath h) = inr dir ->
  refreshContent h id w =
    (mkWorld (files w)
       (trace w ++
        [ELog (js "Unknown contentId: " ++ id);
         ELog (js "Unknown contentId: " ++ id);
         ELog (js "File path could not be determined for contentId: " ++ id);
         EPostMessage (contentRefreshed id true)]),
     Resolved tt).
Proof.
  intros Hne Hdir.
  unfold refreshContent, readContent, updateContent, bind.
  rewrite (getContentPath_unknown _ _ _ Hne), Hdir. cbn [ret].
  rewrite (getContentPath_unknown _ _ _ Hne), Hdir.
  unfold log, postMessageToWebview, emit. cbn [files trace].
  rewrite <- !app_assoc. reflexivity.
Qed.

Lemma refreshContent_unknown_id_reports_success_witness :
  js "other" <> GlobalContentIds_customInstructions plainHost /\
  (refreshContent plainHost (js "other") helloWorld).2 = Resolved tt /\
  posted (trace (refreshContent plainHost (js "other") helloWorld).1)
    = [contentRefreshed (js "other") true].
Proof.
  assert (Hne : js "other" <> GlobalContentIds_customInstructions plainHost)
    by (vm_compute; discriminate).
  split; [exact Hne|].
  rewrite (refreshContent_unknown_id_reports_success plainHost (js "other")
             (js "/storage/settings") helloWorld Hne eq_refl).
  split; reflexivity.
Defined.

(** X8. A refused write leaves no trace: the update rejects with the error
    of [fs.writeFile] before the log line and the state push, and a refresh
    of a document with non-blank text rejects the same way, posting no
    [contentRefreshed] and leaving the file as it was. *)
Theorem refused_write_leaves_no_trace
    (h : Host) (id p s : jsstring) (w : World) (e : JsError) :
  resolves h id p ->
  truthy (trim s) = true ->
  writeFile_error h p = Some e ->
  updateContent h id (Some s) w = (w, Rejected e) /\
  (files w !! p = Some s -> refreshContent h id w = (w, Rejected e)).
Proof.
  intros Hres Hs Hw.
  pose proof (updateContent_write_rejected _ _ _ _ w _ Hres Hs Hw) as Hupd.
  split; [exact Hupd|].
  intros Hf. unfold refreshContent, bind.
  rewrite (readContent_resolves _ _ _ _ Hres), Hf.
  change (default [] (Some s)) with s. rewrite Hupd. reflexivity.
Qed.

Lemma refused_write_leaves_no_trace_witness :
  truthy (trim paddedHello) = true /\
  files helloWorld !! instructionsPath = Some paddedHello /\
  refreshContent readOnlyHost (js "customInstructions") helloWorld
    = (helloWorld, Rejected EACCES).
Proof.
  assert (Hres : resolves readOnlyHost (js "customInstructions") instructionsPath).
  { split; [reflexivity|]. exists (js "/storage/settings").
    repeat split; reflexivity. }
  assert (Hf : files helloWorld !! instructionsPath = Some paddedHello)
    by (vm_compute; reflexivity).
  split; [reflexivity|]. split; [exact Hf|].
  destruct (refused_write_leaves_no_trace readOnlyHost
              (js "customInstructions") instructionsPath paddedHello
              helloWorld EACCES Hres eq_refl eq_refl) as (_ & H).
  exact (H Hf).
Defined.

(** X9. A rejected state push comes after the file operation and undoes
    nothing. When the file operation of an update (the write for non-blank
    content, the deletion otherwise) is not refused and the push is, the
    update rejects with the error of the push while the file already holds
    the trimmed content as UTF-8 keeps it (lone surrogates replaced by
    U+FFFD), or is gone; a refresh rejects the same way, with the file
    normalised and no [contentRefreshed] posted. *)
Theorem rejected_state_push_keeps_the_change
    (h : Host) (id p : jsstring) (c : option jsstring) (w : World)
    (e : JsError) :
  resolves h id p ->
  postState_error h = Some e ->
  (notRefused h p c ->
   (updateContent h id c w).2 = Rejected e /\
   files (updateContent h id c w).1 = store p (trim (default [] c)) (files w) /\
   files (updateContent h id c w).1 !! p =
     (if truthy (trim (default [] c))
      then Some (toWellFormed (trim (default [] c)))
      else None) /\
   statePushes (trace (updateContent h id c w).1) = S (statePushes (trace w))) /\
  (notRefused h p (Some (default [] (files w !! p))) ->
   (refreshContent h id w).2 = Rejected e /\
   files (refreshContent h id w).1
     = store p (trim (default [] (files w !! p))) (files w) /\
   posted (trace (refreshContent h id w).1) = posted (trace w)).
Proof.
  intros Hres Hpost.
  assert (Hupd : forall c', notRefused h p c' ->
             updateContent h id c' w =
               (mkWorld (store p (trim (default [] c')) (files w))
                  (trace w ++ updateLog p c' w ++ [EPostState]),
                Rejected e)).
  { intros c' Hok. rewrite (updateContent_accepted _ _ _ _ _ Hres Hok).
    rewrite postStateToWebview_eq, Hpost. cbn [files trace].
    rewrite <- app_assoc. reflexivity. }
  split.
  - intros Hok. rewrite (Hupd c Hok). cbn [fst snd files trace].
    destruct (statePushes_updateLog p c w) as (Hs & _).
    split; [reflexivity|]. split; [reflexivity|]. split.
    + rewrite lookup_store.
      destruct (decide (p = p)) as [_|Hne]; [reflexivity | contradiction].
    + rewrite !statePushes_app, Hs. simpl. lia.
  - intros Hok. unfold refreshContent, bind.
    rewrite (readContent_resolves _ _ _ _ Hres), (Hupd _ Hok).
    cbn [fst snd files trace].
    destruct (statePushes_updateLog p (Some (default [] (files w !! p))) w)
      as (_ & Hp).
    split; [reflexivity|]. split; [reflexivity|].
    rewrite !posted_app, Hp. cbn [posted]. rewrite !app_nil_r. reflexivity.
Qed.

Lemma rejected_state_push_keeps_the_change_witness :
  notRefused deafHost instructionsPath (Some loneSurrogate) /\
  (updateContent deafHost (js "customInstructions") (Some loneSurrogate)
     emptyWorld).2 = Rejected (mkError None (js "Webview is disposed")) /\
  files (updateContent deafHost (js "customInstructions") (Some loneSurrogate)
           emptyWorld).1 !! instructionsPath = Some [65533; 120].
Proof.
  assert (Hres : resolves deafHost (js "customInstructions") instructionsPath).
  { split; [reflexivity|]. exists (js "/storage/settings").
    repeat split; reflexivity. }
  assert (Hok : notRefused deafHost instructionsPath (Some loneSurrogate))
    by reflexivity.
  split; [exact Hok|].
  destruct (rejected_state_push_keeps_the_change deafHost
              (js "customInstructions") instructionsPath (Some loneSurrogate)
              emptyWorld (mkError None (js "Webview is disposed"))
              Hres eq_refl) as (Hupd & _).
  destruct (Hupd Hok) as (Hr & _ & Hf & _).
  split; [exact Hr | exact Hf].
Defined.

(** X10. Opening a resolvable document asks to open its file with
    [create: true] and then runs the revert command, in this order and
    nothing else: it logs nothing, posts nothing, pushes no state, and
    completes whatever the file system or the webview would refuse. *)
Theorem openContent_opens_then_reverts
    (h : Host) (id p : jsstring) (w : World) :
  resolves h id p ->
  (openContent h id w).2 = Resolved tt /\
  trace (openContent h id w).1 =
    trace w ++ [EOpenFile p true;
                EExecuteCommand (js "workbench.action.files.revert")] /\
  posted (trace (openContent h id w).1) = posted (trace w) /\
  statePushes (trace (openContent h id w).1) = statePushes (trace w).
Proof.
  intros Hres.
  assert (Heq : exists fs,
             openContent h id w =
               (mkWorld fs
                  (trace w ++ [EOpenFile p true;
                               EExecuteCommand (js "workbench.action.files.revert")]),
                Resolved tt)).
  { unfold openContent, bind at 1.
    rewrite (getContentPath_resolves _ _ _ _ Hres).
    destruct Hres as (_ & _ & _ & _ & Hp).
    destruct p as [|a p]; [discriminate|].
    unfold bind, openFile, executeCommand, emit. cbn [fst snd files trace].
    rewrite <- app_assoc. eexists. reflexivity. }
  destruct Heq as (fs & ->). cbn [fst snd trace].
  split; [reflexivity|]. split; [reflexivity|].
  rewrite posted_app, statePushes_app. cbn [posted statePushes].
  rewrite app_nil_r. split; [reflexivity | lia].
Qed.

Lemma openContent_opens_then_reverts_witness :
  resolves lockedHost (js "customInstructions") instructionsPath /\
  (openContent lockedHost (js "customInstructions") helloWorld).2
    = Resolved tt.
Proof.
  split; [exact lockedHost_resolves|].
  destruct (openContent_opens_then_reverts lockedHost
              (js "customInstructions") instructionsPath helloWorld
              lockedHost_resolves) as (H & _).
  exact H.
Defined.

End ContentManagerMore.

(** * Further properties of the refresh coordinator *)

Section RefreshableContentMore.

Import RefreshableContent.

(** The listener does nothing unless both the type and the identifier of
    the message match. *)
Lemma handleMessage_skip (id : jsstring) (m : ExtensionMessage) (c : Component) :
  type m <> js "contentRefreshed" \/ Shared.contentId m <> Some id ->
  handleMessage id m c = (c, None).
Proof.
  intros H. unfold handleMessage.
  destruct H as [H|H]; rewrite (bool_decide_eq_false_2 _ H);
    rewrite ?andb_false_r; reflexivity.
Qed.

Lemma handleMessage_match (id : jsstring) (m : ExtensionMessage) (c : Component) :
  type m = js "contentRefreshed" ->
  Shared.contentId m = Some id ->
  (handleMessage id m c).1 =
    match success m with
    | Some true =>
        (setTimeout 3000 (setShowRefreshSuccess true (setIsRefreshing false c))).1
    | _ => setIsRefreshing false c
    end.
Proof.
  intros Ht Hi. unfold handleMessage.
  rewrite (bool_decide_eq_true_2 _ Ht), (bool_decide_eq_true_2 _ Hi).
  cbn [andb]. destruct (success m) as [[|]|]; reflexivity.
Qed.

(** The listener never touches the mount flag, the listener itself, the
    bound identifier, the clock or the outgoing messages. *)
Lemma handleMessage_frame (id : jsstring) (m : ExtensionMessage) (c : Component) :
  mounted (handleMessage id m c).1 = mounted c /\
  listener (handleMessage id m c).1 = listener c /\
  props_contentId (handleMessage id m c).1 = props_contentId c /\
  clock (handleMessage id m c).1 = clock c /\
  sent (handleMessage id m c).1 = sent c.
Proof.
  unfold handleMessage.
  destruct (bool_decide _ && bool_decide _); [|repeat split].
  unfold setTimeout, setShowRefreshSuccess, setIsRefreshing.
  destruct (success m) as [[|]|], (mounted c) eqn:Hm; cbn; rewrite ?Hm;
    repeat split; cbn; rewrite ?Hm; reflexivity.
Qed.

(** While no pending timer comes due, time only moves the clock. *)
Lemma advance_idle (d : N) (c : Component) :
  (forall t, In t (timers c) -> clock c + d < due t) ->
  advance d c =
    mkComponent (isRefreshing c) (showRefreshSuccess c) (props_contentId c)
      (mounted c) (listener c) (timers c) (nextHandle c) (clock c + d) (sent c).
Proof.
  intros Hpending. unfold advance.
  rewrite (filter_none (isDue (clock c + d)) (timers c)).
  2:{ intros t Ht. apply N.leb_gt. apply Hpending. exact Ht. }
  rewrite forallb_filter_id; [reflexivity|].
  apply forallb_forall. intros t Ht. apply negb_true_iff, N.leb_gt.
  apply Hpending. exact Ht.
Qed.

(** When nothing fires, nothing is removed. *)
Lemma filter_none_keeps_all {A} (f : A -> bool) (l : list A) :
  List.filter f l = [] -> List.filter (fun x => negb (f x)) l = l.
Proof.
  induction l as [|x l IH]; [reflexivity|].
  cbn [List.filter]. destruct (f x); [discriminate|].
  intros H. cbn [negb]. rewrite (IH H). reflexivity.
Qed.

(** X11. An answer for the bound identifier that does not carry
    [success: true] only clears [isRefreshing]: the banner is left as it
    was and no timer is scheduled. *)
Theorem failure_response_clears_flag_only
    (id : jsstring) (m : ExtensionMessage) (c : Component) :
  boundTo id c ->
  type m = js "contentRefreshed" ->
  Shared.contentId m = Some id ->
  success m <> Some true ->
  dispatchMessage m c =
    mkComponent false (showRefreshSuccess c) (props_contentId c) (mounted c)
      (listener c) (timers c) (nextHandle c) (clock c) (sent c).
Proof.
  intros [Hm Hl] Ht Hi Hs. unfold dispatchMessage. rewrite Hl.
  rewrite (handleMessage_match _ _ _ Ht Hi).
  unfold setIsRefreshing. rewrite Hm.
  destruct (success m) as [[|]|];
    [contradiction | rewrite ?Hl; reflexivity | rewrite ?Hl; reflexivity].
Qed.

Lemma failure_response_clears_flag_only_witness :
  boundTo (js "a") (refreshContent (mount (js "a"))) /\
  isRefreshing (refreshContent (mount (js "a"))) = true /\
  isRefreshing
    (dispatchMessage (contentRefreshed (js "a") false)
       (refreshContent (mount (js "a")))) = false /\
  timers
    (dispatchMessage (contentRefreshed (js "a") false)
       (refreshContent (mount (js "a")))) = [].
Proof.
  assert (Hb : boundTo (js "a") (refreshContent (mount (js "a"))))
    by (split; reflexivity).
  split; [exact Hb|]. split; [reflexivity|].
  rewrite (failure_response_clears_flag_only (js "a")
             (contentRefreshed (js "a") false)
             (refreshContent (mount (js "a"))) Hb eq_refl eq_refl).
  - split; reflexivity.
  - discriminate.
Defined.

(** X12. A message of any type other than ["contentRefreshed"] changes
    nothing, even when it carries the bound identifier. *)
Theorem other_message_type_is_ignored (m : ExtensionMessage) (c : Component) :
  type m <> js "contentRefreshed" ->
  dispatchMessage m c = c.
Proof.
  intros Ht. unfold dispatchMessage.
  destruct (listener c) as [id|]; [|reflexivity].
  rewrite (handleMessage_skip id m c (or_introl Ht)). reflexivity.
Qed.

Lemma other_message_type_is_ignored_witness :
  type (mkMessage (js "state") (Some (js "a")) (Some true))
    <> js "contentRefreshed" /\
  dispatchMessage (mkMessage (js "state") (Some (js "a")) (Some true))
    (refreshContent (mount (js "a"))) = refreshContent (mount (js "a")).
Proof.
  assert (Hne : type (mkMessage (js "state") (Some (js "a")) (Some true))
                <> js "contentRefreshed") by (vm_compute; discriminate).
  split; [exact Hne|].
  exact (other_message_type_is_ignored _ (refreshContent (mount (js "a"))) Hne).
Defined.

(** X13. The refresh action and its answer: on a coordinator bound to the
    identifier it was rendered with, the action raises [isRefreshing] and
    sends one [refreshContent] request for that identifier, and the answer
    for it, successful or not, lowers [isRefreshing] again. *)
Theorem refresh_round_trip (id : jsstring) (ok : bool) (c : Component) :
  boundTo id c ->
  props_contentId c = id ->
  isRefreshing (refreshContent c) = true /\
  sent (refreshContent c)
    = sent c ++ [mkWebviewMessage (js "refreshContent") id] /\
  timers (refreshContent c) = timers c /\
  isRefreshing (dispatchMessage (contentRefreshed id ok) (refreshContent c))
    = false.
Proof.
  intros [Hm Hl] Hp. unfold refreshContent, setIsRefreshing. rewrite Hm.
  cbn [isRefreshing sent timers props_contentId]. rewrite Hp.
  do 3 (split; [reflexivity|]).
  unfold dispatchMessage. cbn [listener]. rewrite Hl.
  rewrite handleMessage_match by reflexivity.
  unfold contentRefreshed, setTimeout, setShowRefreshSuccess, setIsRefreshing.
  cbn [success mounted]. destruct ok; reflexivity.
Qed.

Lemma refresh_round_trip_witness :
  boundTo (js "a") (mount (js "a")) /\
  isRefreshing (refreshContent (mount (js "a"))) = true /\
  isRefreshing
    (dispatchMessage (contentRefreshed (js "a") false)
       (refreshContent (mount (js "a")))) = false.
Proof.
  assert (Hb : boundTo (js "a") (mount (js "a"))) by (split; reflexivity).
  split; [exact Hb|].
  destruct (refresh_round_trip (js "a") false (mount (js "a")) Hb eq_refl)
    as (H1 & _ & _ & H4).
  split; [exact H1 | exact H4].
Defined.

(** X14. Rendering with another identifier keeps both flags as they were
    and moves the listener to the new identifier, so an answer for the old
    one no longer has any effect: a refresh that was in flight stays
    [isRefreshing]. *)
Theorem rebinding_keeps_flags_and_drops_old_answers
    (id' : jsstring) (ok : bool) (c : Component) :
  mounted c = true ->
  id' <> props_contentId c ->
  isRefreshing (render id' c) = isRefreshing c /\
  showRefreshSuccess (render id' c) = showRefreshSuccess c /\
  listener (render id' c) = Some id' /\
  dispatchMessage (contentRefreshed (props_contentId c) ok) (render id' c)
    = render id' c /\
  isRefreshing
    (dispatchMessage (contentRefreshed (props_contentId c) ok)
       (render id' (refreshContent c))) = true.
Proof.
  intros Hm Hne.
  assert (Hrender : forall c0, mounted c0 = true -> props_contentId c0 = props_contentId c ->
            render id' c0 =
              mkComponent (isRefreshing c0) (showRefreshSuccess c0) id' true
                (Some id') (timers c0) (nextHandle c0) (clock c0) (sent c0)).
  { intros c0 Hm0 Hp0. unfold render. rewrite Hm0.
    destruct (decide (id' = props_contentId c0)) as [Heq|_]; [congruence|].
    unfold effect, effectCleanup, setListener. cbn. rewrite Hm0. reflexivity. }
  assert (Hdrop : forall c0, listener c0 = Some id' ->
            dispatchMessage (contentRefreshed (props_contentId c) ok) c0 = c0).
  { intros c0 Hl0. unfold dispatchMessage. rewrite Hl0.
    rewrite handleMessage_skip; [reflexivity|].
    right. unfold contentRefreshed. cbn [Shared.contentId]. congruence. }
  rewrite (Hrender c Hm eq_refl). cbn [isRefreshing showRefreshSuccess listener].
  do 3 (split; [reflexivity|]). split.
  - apply Hdrop. reflexivity.
  - assert (Hr : mounted (refreshContent c) = true /\
                 props_contentId (refreshContent c) = props_contentId c /\
                 isRefreshing (refreshContent c) = true).
    { unfold refreshContent, setIsRefreshing. rewrite Hm. repeat split. }
    destruct Hr as (Hm1 & Hp1 & Hi1).
    rewrite (Hrender _ Hm1 Hp1), Hdrop by reflexivity.
    cbn [isRefreshing]. exact Hi1.
Qed.

Lemma rebinding_keeps_flags_and_drops_old_answers_witness :
  mounted (mount (js "a")) = true /\
  js "b" <> props_contentId (mount (js "a")) /\
  isRefreshing
    (dispatchMessage (contentRefreshed (js "a") true)
       (render (js "b") (refreshContent (mount (js "a"))))) = true.
Proof.
  assert (Hne : js "b" <> props_contentId (mount (js "a")))
    by (vm_compute; discriminate).
  split; [reflexivity|]. split; [exact Hne|].
  destruct (rebinding_keeps_flags_and_drops_old_answers (js "b") true
              (mount (js "a")) eq_refl Hne) as (_ & _ & _ & _ & H).
  exact H.
Defined.

(** X15. Once unmounted, the component hears nothing: no sequence of
    messages changes any part of it. *)
Theorem unmounted_hears_nothing (ms : list ExtensionMessage) (c : Component) :
  run (List.map OMessage ms) (unmount c) = unmount c.
Proof.
  induction ms as [|m ms IH]; [reflexivity|].
  unfold run in *. cbn [List.map fold_left step].
  replace (dispatchMessage m (unmount c)) with (unmount c) by reflexivity.
  exact IH.
Qed.

(** X16. A second success does not restart the banner's time: when it
    arrives [d] ms after the first (0 < d < 3000), the banner goes off
    3000 - d ms later, when the first timer fires, while the timer of the
    second success is still pending. *)
Theorem second_success_banner_cut_short (id : jsstring) (d : N) (c : Component) :
  boundTo id c ->
  timers c = [] ->
  0 < d -> d < 3000 ->
  let first := dispatchMessage (contentRefreshed id true) c in
  let second := dispatchMessage (contentRefreshed id true) (advance d first) in
  let after := advance (3000 - d) second in
  showRefreshSuccess second = true /\
  clock after = clock second + (3000 - d) /\
  showRefreshSuccess after = false /\
  timers after = [mkTimer (nextHandle c + 1) (clock c + d + 3000)].
Proof.
  intros Hb Hts Hd0 Hd first second after.
  assert (Hfirst : first =
            mkComponent false true (props_contentId c) true (Some id)
              [mkTimer (nextHandle c) (clock c + 3000)]
              (nextHandle c + 1) (clock c) (sent c)).
  { subst first. rewrite (dispatch_success _ _ Hb), Hts. reflexivity. }
  assert (Hwait : advance d first =
            mkComponent false true (props_contentId c) true (Some id)
              [mkTimer (nextHandle c) (clock c + 3000)]
              (nextHandle c + 1) (clock c + d) (sent c)).
  { rewrite advance_idle; rewrite Hfirst; [reflexivity|].
    cbn [timers clock]. intros t [<-|[]]. cbn [due]. lia. }
  assert (Hsecond : second =
            mkComponent false true (props_contentId c) true (Some id)
              [mkTimer (nextHandle c) (clock c + 3000);
               mkTimer (nextHandle c + 1) (clock c + d + 3000)]
              (nextHandle c + 1 + 1) (clock c + d) (sent c)).
  { subst second. rewrite Hwait.
    rewrite dispatch_success by (split; reflexivity). reflexivity. }
  subst after. rewrite Hsecond. unfold advance.
  cbn [timers clock List.filter].
  assert (H1 : isDue (clock c + d + (3000 - d))
                 (mkTimer (nextHandle c) (clock c + 3000)) = true)
    by (apply N.leb_le; cbn [due]; lia).
  assert (H2 : isDue (clock c + d + (3000 - d))
                 (mkTimer (nextHandle c + 1) (clock c + d + 3000)) = false)
    by (apply N.leb_gt; cbn [due]; lia).
  rewrite H1, H2. cbn [negb fold_left].
  unfold fire, setShowRefreshSuccess. cbn. repeat split.
Qed.

Lemma second_success_banner_cut_short_witness :
  boundTo (js "a") (mount (js "a")) /\
  showRefreshSuccess
    (advance (3000 - 2000)
       (dispatchMessage (contentRefreshed (js "a") true)
          (advance 2000
             (dispatchMessage (contentRefreshed (js "a") true)
                (mount (js "a")))))) = false.
Proof.
  assert (Hb : boundTo (js "a") (mount (js "a"))) by (split; reflexivity).
  split; [exact Hb|].
  destruct (second_success_banner_cut_short (js "a") 2000 (mount (js "a")) Hb
              eq_refl eq_refl eq_refl) as (_ & _ & H & _).
  exact H.
Defined.

(** Each step keeps the listener on the rendered identifier. *)
Lemma step_listening (c : Component) (o : Op) :
  listening c -> listening (step c o).
Proof.
  unfold listening. intros H. destruct o as [id'| |m| |d]; cbn [step].
  - unfold render. destruct (mounted c) eqn:Hm; [|rewrite Hm; exact H].
    destruct (decide _); [rewrite Hm; exact H | cbn; rewrite Hm; reflexivity].
  - reflexivity.
  - unfold dispatchMessage. destruct (listener c) as [id|] eqn:Hl;
      [|rewrite Hl; exact H].
    destruct (handleMessage_frame id m c) as (-> & -> & -> & _).
    rewrite Hl. exact H.
  - unfold refreshContent, setIsRefreshing.
    destruct (mounted c) eqn:Hm; cbn; rewrite ?Hm; exact H.
  - unfold advance.
    match goal with
    | |- context [fold_left fire ?ts ?c0] =>
        destruct (fire_all_frame ts c0) as (_ & -> & -> & -> & _)
    end.
    exact H.
Qed.

(** Each step keeps the pending timers within 3000 ms and a timer behind a
    showing banner. *)
Lemma step_bannerBacked (c : Component) (o : Op) :
  bannerBacked c -> bannerBacked (step c o).
Proof.
  unfold bannerBacked.
  destruct c as [ir sh pid mt li ts nh ck sn].
  cbn [timers clock mounted showRefreshSuccess].
  intros [Hdue Hback]. destruct o as [id'| |m| |d]; cbn [step].
  - unfold render, effect, effectCleanup, setListener.
    cbn [mounted props_contentId].
    destruct mt; [destruct (decide _)|]; cbn; split; assumption.
  - cbn. split; [exact Hdue | intros Hf; discriminate Hf].
  - unfold dispatchMessage. cbn [listener].
    destruct li as [id|]; [|cbn; split; assumption].
    unfold handleMessage.
    destruct (bool_decide _ && bool_decide _); [|cbn; split; assumption].
    unfold setTimeout, setShowRefreshSuccess, setIsRefreshing.
    destruct (success m) as [[|]|], mt; cbn; try (split; assumption).
    + split.
      * intros t Ht. apply in_app_or in Ht. destruct Ht as [Ht|[<-|[]]];
          [exact (Hdue t Ht) | cbn [due]; lia].
      * intros _ _ Hnil. apply app_eq_nil in Hnil.
        destruct Hnil as [_ Hnil]. discriminate Hnil.
    + split.
      * intros t Ht. apply in_app_or in Ht. destruct Ht as [Ht|[<-|[]]];
          [exact (Hdue t Ht) | cbn [due]; lia].
      * intros Hf. discriminate Hf.
  - unfold refreshContent, setIsRefreshing.
    destruct mt; cbn; split; assumption.
  - unfold advance. cbn [timers clock mounted showRefreshSuccess isRefreshing
                         props_contentId listener nextHandle sent].
    match goal with
    | |- context [fold_left fire ?fired ?c0] =>
        destruct (fire_all_frame fired c0) as (_ & _ & Hm' & _ & Ht' & _ & Hc' & _);
        pose proof (fire_all_banner fired c0) as Hoff
    end.
    cbn [mounted timers clock] in Hm', Ht', Hc', Hoff.
    rewrite Hm', Ht', Hc'. split.
    + intros t Ht. apply filter_In in Ht.
      destruct Ht as [Ht _]. pose proof (Hdue t Ht). lia.
    + intros Hm Hshow.
      destruct (List.filter (isDue (ck + d)) ts) as [|t ts'] eqn:Hfired.
      * cbn [fold_left showRefreshSuccess] in Hshow.
        rewrite (filter_none_keeps_all _ _ Hfired). exact (Hback Hm Hshow).
      * rewrite (Hoff Hm) in Hshow; [discriminate Hshow | discriminate].
Qed.

Lemma run_invariants (ops : list Op) (c : Component) :
  listening c -> bannerBacked c ->
  listening (run ops c) /\ bannerBacked (run ops c).
Proof.
  revert c. induction ops as [|o ops IH]; intros c Hl Hb; [split; assumption|].
  unfold run in *. cbn [fold_left].
  apply IH; [apply step_listening | apply step_bannerBacked]; assumption.
Qed.

Lemma mount_invariants (id : jsstring) :
  listening (mount id) /\ bannerBacked (mount id).
Proof.
  split; [reflexivity|]. split.
  - intros t [].
  - intros _ Hf. discriminate Hf.
Qed.

(** X17. Through every sequence of renders, unmount, messages, refresh
    actions and passing time after the first render, a mounted component
    listens for exactly the identifier it was last rendered with, and an
    unmounted one for nothing. *)
Theorem listener_follows_the_rendered_identifier (ops : list Op) (id : jsstring) :
  listener (run ops (mount id)) =
    if mounted (run ops (mount id))
    then Some (props_contentId (run ops (mount id)))
    else None.
Proof.
  destruct (mount_invariants id) as (Hl & Hb).
  destruct (run_invariants ops (mount id) Hl Hb) as (H & _). exact H.
Qed.

(** X18. The banner never outlasts 3000 ms without a new success: whatever
    happened since the first render, if the component is still mounted and
    3000 ms pass the banner is off. *)
Theorem banner_expires_within_3000ms (ops : list Op) (id : jsstring) :
  mounted (run ops (mount id)) = true ->
  showRefreshSuccess (advance 3000 (run ops (mount id))) = false.
Proof.
  destruct (mount_invariants id) as (Hl & Hb).
  destruct (run_invariants ops (mount id) Hl Hb) as (_ & Hdue & Hback).
  set (c := run ops (mount id)) in *. intros Hm.
  unfold advance.
  assert (Hall : List.filter (isDue (clock c + 3000)) (timers c) = timers c).
  { apply forallb_filter_id, forallb_forall. intros t Ht.
    apply N.leb_le. exact (Hdue t Ht). }
  rewrite Hall.
  destruct (timers c) as [|t ts] eqn:Hts.
  - cbn [fold_left showRefreshSuccess].
    destruct (showRefreshSuccess c) eqn:Hs; [|reflexivity].
    exfalso. exact (Hback Hm eq_refl eq_refl).
  - apply fire_all_banner; [exact Hm | discriminate].
Qed.

Lemma banner_expires_within_3000ms_witness :
  mounted
    (run [ORefresh; OMessage (contentRefreshed (js "a") true); OAdvance 1000;
          OMessage (contentRefreshed (js "a") true)] (mount (js "a"))) = true /\
  showRefreshSuccess
    (run [ORefresh; OMessage (contentRefreshed (js "a") true); OAdvance 1000;
          OMessage (contentRefreshed (js "a") true)] (mount (js "a"))) = true /\
  showRefreshSuccess
    (advance 3000
       (run [ORefresh; OMessage (contentRefreshed (js "a") true); OAdvance 1000;
             OMessage (contentRefreshed (js "a") true)] (mount (js "a"))))
    = false.
Proof.
  split; [reflexivity|]. split; [reflexivity|].
  apply (banner_expires_within_3000ms
           [ORefresh; OMessage (contentRefreshed (js "a") true); OAdvance 1000;
            OMessage (contentRefreshed (js "a") true)] (js "a")).
  reflexivity.
Defined.

End RefreshableContentMore.
